(** * StressMonitor: the dashboard component of src/pages/StressMonitor.js

    A shallow embedding of the React component [StressMonitor]: its three
    handlers ([loadHistory], [simulatePredict], [submitFeedback]), the
    chart data it derives from the history and the view it returns.

    - JavaScript numbers are IEEE-754 binary64 values, taken from the
      Standard Library's [SpecFloat] at precision 53 and maximal exponent
      1024; every arithmetic operation rounds to nearest, ties to even.
    - JSON payloads are values of the type [value]; reading a property of
      [null] or [undefined] throws a [TypeError].
    - A handler is a closure over the state values of the render that
      created it.  It reads those, and the [set...] functions it calls
      write the component's store, which the next render reads.
    - A handler runs from its click to its end with nothing in between; the
      replies to the requests it awaits are its arguments. *)

From Stdlib Require Import ZArith Lia Bool List String Ascii.
From Stdlib Require Import Floats.SpecFloat DecimalString.
Import ListNotations.
Open Scope string_scope.
Open Scope list_scope.
Open Scope Z_scope.
#[local] Set Warnings "-register-all".

(** ** Numbers *)

Module Binary64.
Definition prec := 53.
Definition emax := 1024.
Definition number := spec_float.

Definition of_Z (z : Z) : number := binary_normalize prec emax z 0 false.
Definition NaN : number := S754_nan.
Definition mul : number -> number -> number := SFmul prec emax.
Definition add : number -> number -> number := SFadd prec emax.
Definition sub : number -> number -> number := SFsub prec emax.
Definition ltb : number -> number -> bool := SFltb.
Definition leb : number -> number -> bool := SFleb.
Definition valid : number -> bool := valid_binary prec emax.

Definition sign (x : number) : bool :=
  match x with
  | S754_zero s | S754_infinity s | S754_finite s _ _ => s
  | S754_nan => false
  end.

(** [Math.floor]: the largest integral number not above [x]. *)
Definition floor (x : number) : number :=
  match x with
  | S754_finite s m e =>
      if 0 <=? e then x
      else
        let q := if s then - ((Zpos m + 2 ^ (- e) - 1) / 2 ^ (- e))
                 else Zpos m / 2 ^ (- e) in
        binary_normalize prec emax q 0 s
  | _ => x
  end.

(** The integer a number denotes, when it denotes one. *)
Definition to_Z (x : number) : option Z :=
  match x with
  | S754_zero _ => Some 0
  | S754_finite s m e =>
      let a := if 0 <=? e then Some (Zpos m * 2 ^ e)
               else if Zpos m mod 2 ^ (- e) =? 0 then Some (Zpos m / 2 ^ (- e))
               else None in
      if s then option_map Z.opp a else a
  | _ => None
  end.
End Binary64.
Import Binary64.

Arguments of_Z : simpl never.
Arguments mul : simpl never.
Arguments add : simpl never.
Arguments sub : simpl never.
Arguments floor : simpl never.
Arguments to_Z : simpl never.
Arguments ltb : simpl never.
Arguments leb : simpl never.

(** What [Math.random()] may return: a number of positive sign, at least
    [+0] and strictly below [1]. *)
Definition Math_random_range (r : number) : bool :=
  valid r && negb (sign r) && ltb r (of_Z 1).

(** ** Values

    A string stands for its sequence of code units. *)

Inductive value :=
| VUndefined
| VNull
| VBool (b : bool)
| VNum (x : number)
| VStr (s : string)
| VArr (items : list value)
| VObj (fields : list (string * value)).

(** A thrown error object; the handlers only ever read its [message]. *)
Inductive exn :=
| AxiosError (text : string)
| TypeError (text : string).

Definition message (e : exn) : string :=
  match e with AxiosError t | TypeError t => t end.

(** What the engine decides: how a number prints, how a string reads as a
    number, and the wording of the [TypeError]s for a property read on
    [null] or [undefined] and for a call of something that is no function. *)
Class Host := {
  NumberToString : number -> string;
  StringToNumber : string -> number;
  TypeErrorMessage : value -> string -> string;
  NotCallableMessage : string -> string
}.

Definition is_null (v : value) : bool :=
  match v with VNull => true | _ => false end.

Definition is_nullish (v : value) : bool :=
  match v with VNull | VUndefined => true | _ => false end.

Definition truthy (v : value) : bool :=
  match v with
  | VUndefined | VNull => false
  | VBool b => b
  | VNum (S754_zero _) | VNum S754_nan => false
  | VNum _ => true
  | VStr s => negb (String.eqb s EmptyString)
  | VArr _ | VObj _ => true
  end.

Fixpoint lookup (k : string) (fields : list (string * value)) : value :=
  match fields with
  | [] => VUndefined
  | (k', v) :: rest => if String.eqb k k' then v else lookup k rest
  end.

Fixpoint join (sep : string) (parts : list string) : string :=
  match parts with
  | [] => EmptyString
  | [p] => p
  | p :: rest => (p ++ sep ++ join sep rest)%string
  end.

Definition char_at (s : string) (i : nat) : value :=
  match String.get i s with
  | Some c => VStr (String c EmptyString)
  | None => VUndefined
  end.

Section Semantics.
Context {host : Host}.

Fixpoint ToString (v : value) : string :=
  match v with
  | VUndefined => "undefined"
  | VNull => "null"
  | VBool true => "true"
  | VBool false => "false"
  | VNum x => NumberToString x
  | VStr s => s
  | VArr items =>
      join "," (map (fun i => if is_nullish i then EmptyString else ToString i) items)
  | VObj _ => "[object Object]"
  end.

Definition ToNumber (v : value) : number :=
  match v with
  | VUndefined => NaN
  | VNull => of_Z 0
  | VBool true => of_Z 1
  | VBool false => of_Z 0
  | VNum x => x
  | VStr s => StringToNumber s
  | VArr _ | VObj _ => StringToNumber (ToString v)
  end.

(** [a > b] *)
Definition gt (a b : value) : bool := ltb (ToNumber b) (ToNumber a).

(** [a || b] *)
Definition or_else (a b : value) : value := if truthy a then a else b.

(** [v.k] for the property names this component reads. *)
Definition Get (v : value) (k : string) : exn + value :=
  match v with
  | VUndefined | VNull => inl (TypeError (TypeErrorMessage v k))
  | VObj fields => inr (lookup k fields)
  | VArr items =>
      inr (if String.eqb k "length" then VNum (of_Z (Z.of_nat (List.length items)))
           else VUndefined)
  | VStr s =>
      inr (if String.eqb k "length" then VNum (of_Z (Z.of_nat (String.length s)))
           else VUndefined)
  | VBool _ | VNum _ => inr VUndefined
  end.

(** [v[i]] for a number [i]. *)
Definition GetIndex (v : value) (i : number) : exn + value :=
  match v with
  | VUndefined | VNull => inl (TypeError (TypeErrorMessage v (NumberToString i)))
  | VArr items =>
      inr (match to_Z i with
           | Some z => if 0 <=? z then nth (Z.to_nat z) items VUndefined else VUndefined
           | None => VUndefined
           end)
  | VStr s =>
      inr (match to_Z i with
           | Some z => if 0 <=? z then char_at s (Z.to_nat z) else VUndefined
           | None => VUndefined
           end)
  | VObj fields => inr (lookup (NumberToString i) fields)
  | VBool _ | VNum _ => inr VUndefined
  end.
End Semantics.

(** ** The component's state and the effects of its handlers *)

(** The four [useState] cells. *)
Record State := {
  stressScore : value;
  sensorData : value;
  history : value;
  lastIndex : value
}.

Definition initial : State := {|
  stressScore := VNull;
  sensorData := VObj [("HRV", VNull); ("SpO2", VNull)];
  history := VArr [];
  lastIndex := VNull
|}.

Inductive event :=
| HttpGet (url : string)
| HttpPost (url : string) (body : value)
| Alert (text : string)
| ConsoleLog (args : list value)
| ConsoleError (label : string) (error : exn).

Definition is_request (ev : event) : bool :=
  match ev with HttpGet _ | HttpPost _ _ => true | _ => false end.

Definition is_alert (ev : event) : bool :=
  match ev with Alert _ => true | _ => false end.

(** The requests a handler sent, and the alerts it showed, in order. *)
Definition requests (t : list event) : list event := filter is_request t.
Definition alerts (t : list event) : list event := filter is_alert t.

(** An [axios] call settles with a response, of which the component reads
    [data], or rejects with an error. *)
Record Response := { data : value }.

Inductive axios_result :=
| Resolved (response : Response)
| Rejected (error : exn).

(** One invocation of a handler: how it completes, the store it leaves and
    what it did, in order. *)
Record Run (A : Type) := {
  completion : exn + A;
  store : State;
  trace : list event
}.
Arguments completion {A} _.
Arguments store {A} _.
Arguments trace {A} _.

Definition M (A : Type) : Type := State -> Run A.

Definition ret {A} (a : A) : M A :=
  fun s => {| completion := inr a; store := s; trace := [] |}.

Definition bind {A B} (c : M A) (k : A -> M B) : M B :=
  fun s =>
    match c s with
    | {| completion := inl e; store := s1; trace := t1 |} =>
        {| completion := inl e; store := s1; trace := t1 |}
    | {| completion := inr a; store := s1; trace := t1 |} =>
        match k a s1 with
        | {| completion := c2; store := s2; trace := t2 |} =>
            {| completion := c2; store := s2; trace := t1 ++ t2 |}
        end
    end.

Declare Scope handler_scope.
Delimit Scope handler_scope with handler.
Notation "x <- c ;; k" := (bind c (fun x => k))
  (at level 61, c at next level, right associativity) : handler_scope.
Notation "c ;; k" := (bind c (fun _ => k))
  (at level 61, right associativity) : handler_scope.
Open Scope handler_scope.

Definition throw {A} (e : exn) : M A :=
  fun s => {| completion := inl e; store := s; trace := [] |}.

Definition lift {A} (r : exn + A) : M A :=
  match r with inl e => throw e | inr a => ret a end.

Definition emit (ev : event) : M unit :=
  fun s => {| completion := inr tt; store := s; trace := [ev] |}.

(** [try { body } catch (error) { handler error }] *)
Definition try_catch {A} (body : M A) (handler : exn -> M A) : M A :=
  fun s =>
    match body s with
    | {| completion := inl e; store := s1; trace := t1 |} =>
        match handler e s1 with
        | {| completion := c2; store := s2; trace := t2 |} =>
            {| completion := c2; store := s2; trace := t1 ++ t2 |}
        end
    | {| completion := inr a; store := s1; trace := t1 |} =>
        {| completion := inr a; store := s1; trace := t1 |}
    end.

Definition await (request : event) (outcome : axios_result) : M Response :=
  emit request ;;
  match outcome with
  | Resolved response => ret response
  | Rejected error => throw error
  end.

Definition alert (text : string) : M unit := emit (Alert text).
Definition console_log (args : list value) : M unit := emit (ConsoleLog args).
Definition console_error (label : string) (error : exn) : M unit :=
  emit (ConsoleError label error).

Definition setStressScore (v : value) : M unit :=
  fun s => {| completion := inr tt; trace := [];
              store := {| stressScore := v; sensorData := sensorData s;
                          history := history s; lastIndex := lastIndex s |} |}.

Definition setSensorData (v : value) : M unit :=
  fun s => {| completion := inr tt; trace := [];
              store := {| stressScore := stressScore s; sensorData := v;
                          history := history s; lastIndex := lastIndex s |} |}.

Definition setHistory (v : value) : M unit :=
  fun s => {| completion := inr tt; trace := [];
              store := {| stressScore := stressScore s; sensorData := sensorData s;
                          history := v; lastIndex := lastIndex s |} |}.

Definition setLastIndex (v : value) : M unit :=
  fun s => {| completion := inr tt; trace := [];
              store := {| stressScore := stressScore s; sensorData := sensorData s;
                          history := history s; lastIndex := v |} |}.

Definition history_url : string := "http://localhost:8000/history".
Definition predict_url : string := "http://localhost:8000/predict".
Definition feedback_url : string := "http://localhost:8000/feedback".

Definition quote : string := String "034" EmptyString.
Definition newline : string := String "010" EmptyString.

(** ** The handlers *)

(** The synthetic sample of [simulatePredict], from the two numbers its two
    calls of [Math.random()] return. *)
Definition simulated_HRV (random : number) : number :=
  add (floor (mul random (of_Z 51))) (of_Z 40).

Definition simulated_SpO2 (random : number) : number :=
  add (mul random (of_Z 8)) (of_Z 92).

Definition simulated_data (random1 random2 : number) : value :=
  VObj [("HRV", VNum (simulated_HRV random1));
        ("SpO2", VNum (simulated_SpO2 random2))].

(** Sequencing of expressions that may throw, outside the handlers. *)
Definition and_then {A B} (r : exn + A) (k : A -> exn + B) : exn + B :=
  match r with
  | inl e => inl e
  | inr a => k a
  end.

Notation "x <-- r ;; k" := (and_then r (fun x => k))
  (at level 61, r at next level, right associativity) : handler_scope.

Section Component.
Context {host : Host}.

Definition loadHistory (history_reply : axios_result) : M unit :=
  try_catch
    (response <- await (HttpGet history_url) history_reply ;;
     console_log [VStr "History loaded:"; data response] ;;
     if truthy (data response) then
       h <- lift (Get (data response) "history") ;;
       if truthy h then
         h' <- lift (Get (data response) "history") ;;
         setHistory h'
       else ret tt
     else ret tt)
    (fun error => console_error "Error loading history:" error).

Definition simulatePredict (random1 random2 : number)
    (predict_reply history_reply : axios_result) : M unit :=
  let data_ := simulated_data random1 random2 in
  try_catch
    (response <- await (HttpPost predict_url data_) predict_reply ;;
     score <- lift (Get (data response) "stress_score") ;;
     setStressScore score ;;
     setSensorData data_ ;;
     newIndex <- lift (Get (data response) "new_index") ;;
     console_log [VStr "New prediction saved at index:"; newIndex] ;;
     setLastIndex newIndex ;;
     loadHistory history_reply)
    (fun error => alert ("Error: " ++ message error)%string).

(** The text of the confirmation shown after a recorded feedback. *)
Definition confirmation (feedback index new_score : value) : string :=
  ("✅ Feedback " ++ quote ++ ToString feedback ++ quote ++ " recorded!" ++ newline
   ++ "Row Index: " ++ ToString index ++ newline
   ++ "New Stress Score: " ++ ToString new_score)%string.

(** [render] holds the state values of the render that created the
    handler: the [history] and [lastIndex] its body mentions are these,
    whatever [setLastIndex] has been given meanwhile. *)
Definition submitFeedback (render : State) (feedback : value)
    (feedback_reply history_reply : axios_result) : M unit :=
  unset <-
    (if is_null (lastIndex render) then
       len <- lift (Get (history render) "length") ;;
       ret (gt len (VNum (of_Z 0)))
     else ret false) ;;
  (if unset : bool then
     len <- lift (Get (history render) "length") ;;
     last <- lift (GetIndex (history render) (sub (ToNumber len) (of_Z 1))) ;;
     index <- lift (Get last "index") ;;
     setLastIndex index
   else ret tt) ;;
  if is_null (lastIndex render) then
    alert "Please simulate a reading first"
  else
    try_catch
      (response <-
         await (HttpPost feedback_url
                  (VObj [("index", lastIndex render); ("feedback", feedback)]))
               feedback_reply ;;
       index <- lift (Get (data response) "index") ;;
       new_score <- lift (Get (data response) "new_score") ;;
       alert (confirmation feedback index new_score) ;;
       loadHistory history_reply)
      (fun error =>
         alert ("Feedback error: " ++ message error)%string ;;
         console_error "Feedback error:" error).

(** A click runs the handler of the current render on the current store. *)
Definition click_feedback (feedback : value)
    (feedback_reply history_reply : axios_result) (s : State) : Run unit :=
  submitFeedback s feedback feedback_reply history_reply s.

(** [useEffect(() => { loadHistory(); }, [])]: the first render is followed
    by one history load. *)
Definition mount (history_reply : axios_result) : Run unit :=
  loadHistory history_reply initial.

(** ** What a render derives from the state *)

(** [items.map((entry, idx) => f entry idx)], from position [idx] on. *)
Fixpoint map_entries (f : value -> nat -> exn + value) (items : list value)
    (idx : nat) : exn + list value :=
  match items with
  | [] => inr []
  | entry :: rest =>
      match f entry idx with
      | inl e => inl e
      | inr v =>
          match map_entries f rest (S idx) with
          | inl e => inl e
          | inr vs => inr (v :: vs)
          end
      end
  end.

(** [history.map(f)]: only an array has a [map] to call. *)
Definition history_map (history_ : value) (f : value -> nat -> exn + value)
    : exn + list value :=
  match history_ with
  | VArr items => map_entries f items 0
  | VUndefined | VNull => inl (TypeError (TypeErrorMessage history_ "map"))
  | _ => inl (TypeError (NotCallableMessage "history.map"))
  end.

(** [entry.k || fallback] *)
Definition field_or (k : string) (fallback : value) (entry : value) : exn + value :=
  match Get entry k with
  | inl e => inl e
  | inr v => inr (or_else v fallback)
  end.

(** The label of the entry at position [idx] that has no [Timestamp]. *)
Definition position_label (idx : nat) : value :=
  VStr ("#" ++ ToString (VNum (add (of_Z (Z.of_nat idx)) (of_Z 1)))).

Record ChartData := {
  labels : list value;
  HRV_points : list value;
  SpO2_points : list value
}.

Definition chartData (render : State) : exn + ChartData :=
  match history_map (history render)
          (fun entry idx => field_or "Timestamp" (position_label idx) entry) with
  | inl e => inl e
  | inr ls =>
      match history_map (history render)
              (fun entry _ => field_or "HRV_Denormalized" (VNum (of_Z 0)) entry) with
      | inl e => inl e
      | inr hs =>
          match history_map (history render)
                  (fun entry _ => field_or "Oxygen_Saturation" (VNum (of_Z 0)) entry) with
          | inl e => inl e
          | inr os => inr {| labels := ls; HRV_points := hs; SpO2_points := os |}
          end
      end
  end.

(** [history.length > 0]: the test of line 237 by itself.  What the render
    makes of it is in [StressMonitor_view]. *)
Definition history_length_test (render : State) : exn + bool :=
  match Get (history render) "length" with
  | inl e => inl e
  | inr len => inr (gt len (VNum (of_Z 0)))
  end.

(** [v.toFixed(n)]: a call, which only a number answers; [callee] is the
    text of the expression called, for the error. *)
Definition toFixed_of (v : value) (callee : string) : exn + number :=
  match v with
  | VNum x => inr x
  | VUndefined | VNull => inl (TypeError (TypeErrorMessage v "toFixed"))
  | _ => inl (TypeError (NotCallableMessage callee))
  end.

(** The panel "Latest Prediction": the score, printed with three decimals,
    the HRV, the SpO2, printed with two, and the five feedback buttons. *)
Record Panel := {
  score_shown : number;
  HRV_shown : value;
  SpO2_shown : number
}.

(** The chart, under a heading that gives the number of readings. *)
Record Chart := {
  readings : value;
  series : ChartData
}.

(** What the component returns: the prediction panel or nothing, then the
    chart or else the panel with the "Retry Loading History" button. *)
Record View := {
  prediction : option Panel;
  chart : option Chart
}.

(** The body of the component from the chart data on: it builds
    [chartData], then the elements it returns, in the order they are
    written, and throws where one of these expressions throws. *)
Definition StressMonitor_view (render : State) : exn + View :=
  cd <-- chartData render ;;
  panel <--
    (if is_null (stressScore render) then inr None
     else
       score <-- toFixed_of (stressScore render) "stressScore.toFixed" ;;
       hrv <-- Get (sensorData render) "HRV" ;;
       spo2 <-- Get (sensorData render) "SpO2" ;;
       spo2' <-- toFixed_of spo2 "sensorData.SpO2.toFixed" ;;
       inr (Some {| score_shown := score; HRV_shown := hrv; SpO2_shown := spo2' |})) ;;
  nonempty <-- history_length_test render ;;
  if nonempty : bool then
    len <-- Get (history render) "length" ;;
    inr {| prediction := panel;
           chart := Some {| readings := len; series := cd |} |}
  else inr {| prediction := panel; chart := None |}.

End Component.

(** ** Notions used to reason about rounding *)

(** [shifted M k mrs]: [mrs] is what [k] one-bit right shifts of [M] leave,
    the round bit and the sticky bit accounting for the bits shifted out. *)
Definition shifted (M k : Z) (mrs : shr_record) : Prop :=
  0 <= shr_m mrs /\
  exists L,
    0 <= L < 2 ^ k /\
    2 * M = 2 * shr_m mrs * 2 ^ k + (if shr_r mrs then 2 ^ k else 0) + L /\
    (shr_s mrs = true <-> L <> 0).

(** Round to nearest, ties to even, on a shifted mantissa: the result is the
    quotient or its successor, and the successor only from the upper half. *)
Definition nearest (M k q' : Z) : Prop :=
  (q' = M / 2 ^ k /\ 2 * (M mod 2 ^ k) <= 2 ^ k) \/
  (q' = M / 2 ^ k + 1 /\ 2 ^ k <= 2 * (M mod 2 ^ k)).

(** What [binary_round_aux] computes from an exact mantissa: one rounding to
    nearest at the exponent [fexp] selects, then a renormalising shift. *)
Definition renormalised (sx : bool) (q' e' : Z) : spec_float :=
  let n2 := Z.max 0 (fexp prec emax (Zdigits2 q' + e') - e') in
  match q' / 2 ^ n2 with
  | Z0 => S754_zero sx
  | Zpos m =>
      if e' + n2 <=? emax - prec then S754_finite sx m (e' + n2)
      else S754_infinity sx
  | Zneg _ => S754_nan
  end.

(** ** A host to run the handlers on

    It prints integers in decimal, reads decimal integers, and words the
    [TypeError] as V8 does.  The theorems below hold for every host; this
    one serves to evaluate the handlers on concrete inputs. *)

Definition sample_host : Host := {|
  NumberToString := fun x =>
    match to_Z x with
    | Some z => NilZero.string_of_int (Z.to_int z)
    | None => "NaN"
    end;
  StringToNumber := fun s =>
    match NilZero.int_of_string s with
    | Some i => of_Z (Z.of_int i)
    | None => NaN
    end;
  TypeErrorMessage := fun v k =>
    ("Cannot read properties of " ++ (if is_null v then "null" else "undefined")
     ++ " (reading '" ++ k ++ "')")%string;
  NotCallableMessage := fun callee => (callee ++ " is not a function")%string
|}.

(** The largest number below 1, [1 - 2^-53]. *)
Definition below_one : number := S754_finite false 9007199254740991 (-53).

(** Sample replies of the backend: a prediction stored at row 7 with score
    0.42, the history holding that row, and a recorded feedback. *)
Definition sample_score : number := S754_finite false 7566047373982433 (-54).

Definition sample_prediction : Response :=
  {| data := VObj [("stress_score", VNum sample_score);
                   ("new_index", VNum (of_Z 7))] |}.

Definition sample_row : value :=
  VObj [("Timestamp", VStr "2025-01-01 10:00:00");
        ("HRV_Denormalized", VNum (of_Z 62));
        ("Oxygen_Saturation", VNum (of_Z 97));
        ("index", VNum (of_Z 7))].

Definition sample_history : Response :=
  {| data := VObj [("history", VArr [sample_row])] |}.

Definition sample_recorded : Response :=
  {| data := VObj [("index", VNum (of_Z 7)); ("new_score", VNum sample_score)] |}.

(** A prediction the backend scored without giving the row it stored. *)
Definition sample_prediction_without_index : Response :=
  {| data := VObj [("stress_score", VNum sample_score); ("new_index", VNull)] |}.

Definition network_error : exn := AxiosError "Network Error".

(** The store once the history above is loaded on mount. *)
Definition loaded : State := {|
  stressScore := VNull;
  sensorData := VObj [("HRV", VNull); ("SpO2", VNull)];
  history := VArr [sample_row];
  lastIndex := VNull
|}.

(** A number [Math.random()] may return whose HRV is [k]. *)
Definition HRV_preimage (k : Z) : number :=
  binary_normalize prec emax ((2 * (k - 40) + 1) * 2 ^ 60 / 102) (-60) false.

(** The canonical binary64 form of a positive integer below [2^53]: its 53
    bit mantissa and the exponent that goes with it. *)
Definition canonical (z : positive) : number :=
  S754_finite false
    (fst (shl_align z 0 (Zpos (digits2_pos z) - 53)))
    (Zpos (digits2_pos z) - 53).

(** [1 - 2^-50]: from here up to 1, a random number gives an SpO2 of 100. *)
Definition SpO2_threshold : number := S754_finite false 9007199254740984 (-53).

(** A request went through as far as the handlers can tell: it resolved,
    and with a body whose fields can be read. *)
Definition succeeded (reply : axios_result) : bool :=
  match reply with
  | Resolved response => negb (is_nullish (data response))
  | Rejected _ => false
  end.

(** ** Tactics *)

(** Case analysis on an integer [0 <= F < bound <= 51], [tac] closing each case. *)
Ltac enumerate_upto F bound tac :=
  let n := fresh "n" in
  let Hn := fresh "Hn" in
  rewrite <- (Z2Nat.id F) by lia;
  assert (Hn : (Z.to_nat F < bound)%nat) by lia;
  generalize dependent (Z.to_nat F); intros n Hn; clear - Hn;
  do 51 (destruct n as [ | n]; [tac |]); lia.

(** Closes the conjuncts of a frame statement once the run is known. *)
Ltac frame_cases :=
  repeat split; try assumption; try reflexivity;
  try (left; reflexivity); try (right; reflexivity);
  try (intros; first [discriminate | assumption | reflexivity]).

(** * Rounding to binary64 *)

Lemma digits2_pos_bounds (p : positive) :
  2 ^ (Zpos (digits2_pos p) - 1) <= Zpos p < 2 ^ Zpos (digits2_pos p).
Proof.
  induction p as [p IH | p IH | ]; cbn [digits2_pos].
  - rewrite Pos2Z.inj_succ.
    replace (Z.succ (Zpos (digits2_pos p)) - 1) with (Z.succ (Zpos (digits2_pos p) - 1)) by lia.
    rewrite !Z.pow_succ_r by lia. lia.
  - rewrite Pos2Z.inj_succ.
    replace (Z.succ (Zpos (digits2_pos p)) - 1) with (Z.succ (Zpos (digits2_pos p) - 1)) by lia.
    rewrite !Z.pow_succ_r by lia. lia.
  - cbn. lia.
Qed.

Lemma digits2_pos_le (p : positive) (k : Z) :
  0 <= k -> Zpos p < 2 ^ k -> Zpos (digits2_pos p) <= k.
Proof.
  intros Hk Hp.
  destruct (Z_le_gt_dec (Zpos (digits2_pos p)) k) as [H | H]; [exact H | exfalso].
  pose proof (digits2_pos_bounds p) as [Hlo _].
  assert (2 ^ k <= 2 ^ (Zpos (digits2_pos p) - 1)) by (apply Z.pow_le_mono_r; lia).
  lia.
Qed.

Lemma digits2_pos_gt (p : positive) (k : Z) :
  2 ^ k <= Zpos p -> k < Zpos (digits2_pos p).
Proof.
  intros Hp.
  destruct (Z_lt_le_dec k (Zpos (digits2_pos p))) as [H | H]; [exact H | exfalso].
  pose proof (digits2_pos_bounds p) as [_ Hhi].
  assert (2 ^ Zpos (digits2_pos p) <= 2 ^ k) by (apply Z.pow_le_mono_r; lia).
  lia.
Qed.

Lemma shifted_0 (M : Z) : 0 <= M -> shifted M 0 (Build_shr_record M false false).
Proof.
  intros HM. split; [exact HM |]. exists 0. cbn. repeat split; try lia; discriminate.
Qed.

Lemma shifted_step (M k : Z) (mrs : shr_record) :
  0 <= k -> shifted M k mrs -> shifted M (k + 1) (shr_1 mrs).
Proof.
  intros Hk [Hq [L [HL [HM Hs]]]]. unfold shifted.
  rewrite Z.pow_add_r, Z.pow_1_r by lia.
  assert (HP : 0 < 2 ^ k) by (apply Z.pow_pos_nonneg; lia).
  set (P := 2 ^ k) in *.
  destruct mrs as [q r s]; cbn [shr_m shr_r shr_s] in *.
  assert (Hs' : (r || s = true <-> (if r then P else 0) + L <> 0)).
  { destruct r; cbn; [split; [lia | reflexivity] | exact Hs]. }
  destruct q as [ | [q | q | ] | q]; cbn [shr_1 shr_m shr_r shr_s]; try lia;
    (split; [lia |]);
    exists ((if r then P else 0) + L);
    (split; [destruct r; lia |]); (split; [| exact Hs']); lia.
Qed.

Lemma shifted_iter (p : positive) :
  forall M k mrs, 0 <= k -> shifted M k mrs ->
    shifted M (k + Zpos p) (iter_pos shr_1 p mrs).
Proof.
  induction p as [p IH | p IH | ]; intros M k mrs Hk H; cbn [iter_pos].
  - replace (k + Zpos p~1) with (k + 1 + Zpos p + Zpos p) by lia.
    apply IH; [lia |]. apply IH; [lia |]. now apply shifted_step.
  - replace (k + Zpos p~0) with (k + Zpos p + Zpos p) by lia.
    apply IH; [lia |]. now apply IH.
  - now apply shifted_step.
Qed.

Lemma shifted_shr (M e n : Z) :
  0 <= M ->
  shifted M (Z.max 0 n) (fst (shr (Build_shr_record M false false) e n)) /\
  snd (shr (Build_shr_record M false false) e n) = e + Z.max 0 n.
Proof.
  intros HM. destruct n as [ | p | p]; cbn [shr fst snd].
  - split; [now apply shifted_0 | cbn; lia].
  - split; [| lia]. change (Z.max 0 (Zpos p)) with (0 + Zpos p).
    apply shifted_iter; [lia | now apply shifted_0].
  - split; [now apply shifted_0 | cbn; lia].
Qed.

Lemma shifted_nearest (M k : Z) (mrs : shr_record) :
  0 <= k -> shifted M k mrs ->
  nearest M k (round_nearest_even (shr_m mrs) (loc_of_shr_record mrs)) /\
  (M mod 2 ^ k = 0 -> round_nearest_even (shr_m mrs) (loc_of_shr_record mrs) = M / 2 ^ k).
Proof.
  intros Hk [Hq [L [HL [HM Hs]]]].
  assert (HP : 0 < 2 ^ k) by (apply Z.pow_pos_nonneg; lia).
  set (P := 2 ^ k) in *.
  destruct mrs as [q r s]; cbn [shr_m shr_r shr_s] in *.
  assert (Hdiv : M / P = q /\ 2 * (M mod P) = (if r then P else 0) + L).
  { assert (Hq' : M / P = q).
    { symmetry. apply (Z.div_unique_pos M P q (M - q * P)); destruct r; lia. }
    split; [exact Hq' |].
    pose proof (Z.div_mod M P ltac:(lia)) as Hdm. rewrite Hq' in Hdm. destruct r; lia. }
  destruct Hdiv as [Hdiv Hmod]. unfold nearest. fold P. rewrite Hdiv, Hmod.
  assert (HL0 : s = false -> L = 0).
  { intros ->. destruct (Z.eq_dec L 0) as [H0 | H0]; [exact H0 |].
    apply Hs in H0. discriminate. }
  assert (HL1 : s = true -> L <> 0) by (intros H; now apply Hs).
  destruct r, s; cbn [loc_of_shr_record round_nearest_even];
    try specialize (HL0 eq_refl); try specialize (HL1 eq_refl).
  - split; [right |]; lia.
  - split; [| lia]. destruct (Z.even q); [left | right]; lia.
  - split; [left |]; lia.
  - split; [left |]; lia.
Qed.

Lemma shifted_quotient (M k : Z) (mrs : shr_record) :
  0 <= k -> shifted M k mrs -> shr_m mrs = M / 2 ^ k.
Proof.
  intros Hk [Hq [L [HL [HM Hs]]]].
  assert (HP : 0 < 2 ^ k) by (apply Z.pow_pos_nonneg; lia).
  apply (Z.div_unique_pos M (2 ^ k) (shr_m mrs) (M - shr_m mrs * 2 ^ k));
    destruct (shr_r mrs); lia.
Qed.

Lemma binary_round_aux_nearest (sx : bool) (M : positive) (E : Z) :
  let n := Z.max 0 (fexp prec emax (Zpos (digits2_pos M) + E) - E) in
  exists q',
    nearest (Zpos M) n q' /\
    (Zpos M mod 2 ^ n = 0 -> q' = Zpos M / 2 ^ n) /\
    binary_round_aux prec emax sx (Zpos M) E loc_Exact = renormalised sx q' (E + n).
Proof.
  intros n. unfold binary_round_aux, shr_fexp. cbn [shr_record_of_loc Zdigits2].
  destruct (shifted_shr (Zpos M) E (fexp prec emax (Zpos (digits2_pos M) + E) - E))
    as [H1 H1e]; [lia |].
  fold n in H1, H1e.
  destruct (shr _ E _) as [mrs' e']. cbn [fst snd] in H1, H1e. subst e'.
  assert (Hn : 0 <= n) by (unfold n; lia).
  destruct (shifted_nearest _ _ _ Hn H1) as [Hnear Hexact].
  set (q' := round_nearest_even (shr_m mrs') (loc_of_shr_record mrs')) in *.
  exists q'. split; [exact Hnear |]. split; [exact Hexact |].
  assert (Hq' : 0 <= q').
  { assert (0 < 2 ^ n) by (apply Z.pow_pos_nonneg; lia).
    assert (0 <= Zpos M / 2 ^ n) by (apply Z.div_pos; lia).
    destruct Hnear as [[-> _] | [-> _]]; lia. }
  unfold renormalised.
  set (n2 := fexp prec emax (Zdigits2 q' + (E + n)) - (E + n)).
  destruct (shifted_shr q' (E + n) n2 Hq') as [H2 H2e].
  destruct (shr _ (E + n) n2) as [mrs'' e'']. cbn [fst snd] in H2, H2e. subst e''.
  rewrite (shifted_quotient q' (Z.max 0 n2) mrs'' (Z.le_max_l 0 n2) H2). reflexivity.
Qed.

Lemma fexp64 (z : Z) : fexp prec emax z = Z.max (z - 53) (-1074).
Proof. reflexivity. Qed.

Lemma compare_cont_Eq_Lt (p q : positive) :
  Pos.compare_cont Eq p q = Lt -> Zpos p < Zpos q.
Proof. intros H. exact H. Qed.

Lemma random_finite_inv (m : positive) (e : Z) :
  Math_random_range (S754_finite false m e) = true ->
  -1074 <= e <= -53 /\ Zpos m < 2 ^ 53 /\
  Z.max (Zpos (digits2_pos m) + e - 53) (-1074) = e.
Proof.
  unfold Math_random_range, valid, valid_binary, bounded, canonical_mantissa.
  rewrite fexp64. cbn [sign negb]. rewrite !andb_true_iff.
  intros [[[Hc Hb] _] Hlt]. apply Z.eqb_eq in Hc. apply Z.leb_le in Hb.
  assert (He : e <= -53).
  { change (of_Z 1) with (S754_finite false 4503599627370496 (-52)) in Hlt.
    unfold ltb, SFltb, SFcompare in Hlt.
    destruct (Z.compare_spec e (-52)) as [He | He | He]; try discriminate; [| lia].
    subst e. exfalso.
    destruct (Pos.compare_cont Eq m 4503599627370496) eqn:Hm; try discriminate.
    apply compare_cont_Eq_Lt in Hm.
    assert (Hd : Zpos (digits2_pos m) <= 52).
    { apply digits2_pos_le; [lia |]. change (2 ^ 52) with 4503599627370496. exact Hm. }
    lia. }
  repeat split; try lia.
  apply Z.lt_le_trans with (2 ^ Zpos (digits2_pos m)); [apply digits2_pos_bounds |].
  apply Z.pow_le_mono_r; lia.
Qed.

Lemma mul_finite (sx sy : bool) (mx my : positive) (ex ey : Z) :
  mul (S754_finite sx mx ex) (S754_finite sy my ey) =
  binary_round_aux prec emax (xorb sx sy) (Zpos (mx * my)) (ex + ey) loc_Exact.
Proof. reflexivity. Qed.

Lemma of_Z_51 : of_Z 51 = S754_finite false 7177611906121728 (-47).
Proof. vm_compute. reflexivity. Qed.

Lemma pow2_split (a b : Z) : 0 <= a -> 0 <= b -> 2 ^ (a + b) = 2 ^ a * 2 ^ b.
Proof. intros. apply Z.pow_add_r; assumption. Qed.

Lemma pow2_pos (a : Z) : 0 <= a -> 0 < 2 ^ a.
Proof. intros. apply Z.pow_pos_nonneg; lia. Qed.

Lemma floor_mul_51 (m : positive) (e : Z) :
  Math_random_range (S754_finite false m e) = true ->
  exists F, 0 <= F <= 50 /\
    floor (mul (S754_finite false m e) (of_Z 51)) = of_Z F.
Proof.
  intros Hr. destruct (random_finite_inv m e Hr) as [He [Hm Hcanon]].
  rewrite of_Z_51, mul_finite. cbn [xorb].
  set (M := (m * 7177611906121728)%positive).
  set (E := e + -47).
  destruct (binary_round_aux_nearest false M E) as [q' [Hnear [_ ->]]].
  unfold nearest in Hnear. rewrite fexp64 in Hnear |- *.
  set (d := Zpos (digits2_pos M)) in *.
  set (n := Z.max 0 (Z.max (d + E - 53) (-1074) - E)) in *.
  assert (HM : Zpos M = 7177611906121728 * Zpos m) by (unfold M; lia).
  (* T = 2^(-e) bounds the mantissa of r from above *)
  assert (HT : 2 ^ 53 <= 2 ^ (- e)) by (apply Z.pow_le_mono_r; lia).
  set (T := 2 ^ (- e)) in *.
  change (2 ^ 53) with 9007199254740992 in *.
  assert (Hd : d <= 6 - E).
  { apply digits2_pos_le; [unfold E; lia |].
    replace (6 - E) with (53 + - e) by (unfold E; lia).
    rewrite pow2_split by lia. fold T. change (2 ^ 53) with 9007199254740992. lia. }
  assert (Hd1 : d <= 106).
  { apply digits2_pos_le; [lia |].
    change (2 ^ 106) with (9007199254740992 * 9007199254740992). nia. }
  assert (Hn : 0 <= n <= 53) by (unfold n, E; lia).
  assert (He' : E + n <= -47) by (unfold n, E in *; lia).
  set (e' := E + n) in *.
  assert (HP : 0 < 2 ^ n <= 9007199254740992).
  { split; [apply pow2_pos; lia |].
    change 9007199254740992 with (2 ^ 53). apply Z.pow_le_mono_r; lia. }
  assert (HW : 2 ^ n * 2 ^ (- e') = 140737488355328 * T).
  { rewrite <- pow2_split by lia. replace (n + - e') with (47 + - e) by (unfold e', E; lia).
    rewrite pow2_split by lia. reflexivity. }
  assert (HWpos : 0 < 2 ^ (- e')) by (apply pow2_pos; lia).
  set (P := 2 ^ n) in *. set (W := 2 ^ (- e')) in *.
  assert (Hq' : 0 <= q' <= 51 * W - 1).
  { pose proof (Z.div_mod (Zpos M) P ltac:(lia)) as Hdm.
    pose proof (Z.mod_pos_bound (Zpos M) P ltac:(lia)) as Hmb.
    assert (Hq0 : 0 <= Zpos M / P) by (apply Z.div_pos; lia).
    assert (Hub : Zpos M + 7177611906121728 <= 51 * (P * W)) by lia.
    destruct Hnear as [[-> _] | [-> Hup]]; (split; [lia |]).
    - assert (Zpos M / P < 51 * W); [| lia].
      apply (Z.mul_lt_mono_pos_l P); lia.
    - assert (Zpos M / P < 51 * W - 1); [| lia].
      apply (Z.mul_lt_mono_pos_l P); lia. }
  unfold renormalised. rewrite fexp64.
  set (n2 := Z.max 0 (Z.max (Zdigits2 q' + e' - 53) (-1074) - e')).
  assert (Hn2 : 0 <= n2) by (unfold n2; lia).
  assert (HP2 : 0 < 2 ^ n2) by (apply pow2_pos; lia).
  assert (Hdq : Zdigits2 q' <= 6 - e').
  { destruct q' as [ | p | p]; cbn [Zdigits2]; [lia | | lia].
    apply digits2_pos_le; [lia |].
    replace (6 - e') with (6 + - e') by lia. rewrite pow2_split by lia. fold W.
    change (2 ^ 6) with 64. lia. }
  assert (He'' : e' + n2 <= -47) by (unfold n2; lia).
  pose proof (Z.div_mod q' (2 ^ n2) ltac:(lia)) as Hdm2.
  pose proof (Z.mod_pos_bound q' (2 ^ n2) ltac:(lia)) as Hmb2.
  assert (Hq2 : 0 <= q' / 2 ^ n2) by (apply Z.div_pos; lia).
  destruct (q' / 2 ^ n2) as [ | m2 | m2] eqn:Hm2; [| | lia].
  - exists 0. split; [lia |]. reflexivity.
  - replace (e' + n2 <=? emax - prec) with true
      by (symmetry; apply Z.leb_le; unfold emax, prec; lia).
    unfold floor. replace (0 <=? e' + n2) with false by (symmetry; apply Z.leb_gt; lia).
    exists (Zpos m2 / 2 ^ (- (e' + n2))). split; [| reflexivity].
    assert (HV : 0 < 2 ^ (- (e' + n2))) by (apply pow2_pos; lia).
    assert (HWV : W = 2 ^ n2 * 2 ^ (- (e' + n2))).
    { unfold W. rewrite <- pow2_split by lia. f_equal. lia. }
    set (V := 2 ^ (- (e' + n2))) in *. set (P2 := 2 ^ n2) in *.
    split; [apply Z.div_pos; lia |].
    assert (Zpos m2 / V < 51); [| lia].
    apply Z.div_lt_upper_bound; [lia |]. nia.
Qed.

Lemma of_Z_8 : of_Z 8 = S754_finite false 4503599627370496 (-49).
Proof. vm_compute. reflexivity. Qed.

Lemma of_Z_92 : of_Z 92 = S754_finite false 6473924464345088 (-46).
Proof. vm_compute. reflexivity. Qed.

Lemma of_Z_100 : of_Z 100 = S754_finite false 7036874417766400 (-46).
Proof. vm_compute. reflexivity. Qed.

Lemma add_finite (sx sy : bool) (mx my : positive) (ex ey : Z) :
  add (S754_finite sx mx ex) (S754_finite sy my ey) =
  binary_normalize prec emax
    (cond_Zopp sx (Zpos (fst (shl_align mx ex (Z.min ex ey)))) +
     cond_Zopp sy (Zpos (fst (shl_align my ey (Z.min ex ey)))))
    (Z.min ex ey) false.
Proof. reflexivity. Qed.

Lemma iter_xO_pow (p m : positive) : Zpos (Pos.iter xO m p) = Zpos m * 2 ^ Zpos p.
Proof.
  induction p as [ | p IH] using Pos.peano_ind.
  - cbn [Pos.iter]. rewrite Z.pow_1_r. lia.
  - rewrite Pos.iter_succ, Pos2Z.inj_xO, IH, Pos2Z.inj_succ, Z.pow_succ_r by lia. lia.
Qed.

Lemma shl_align_down (mx : positive) (ex ex' : Z) :
  ex' <= ex ->
  shl_align mx ex ex' = (fst (shl_align mx ex ex'), ex') /\
  Zpos (fst (shl_align mx ex ex')) = Zpos mx * 2 ^ (ex - ex').
Proof.
  intros H. unfold shl_align. destruct (ex' - ex) as [ | p | p] eqn:Hd; cbn [fst]; try lia.
  - replace (ex - ex') with 0 by lia. replace ex' with ex by lia. split; [reflexivity | lia].
  - split; [reflexivity |]. rewrite iter_xO_pow. f_equal. f_equal. lia.
Qed.

Lemma shl_align_up (mx : positive) (ex ex' : Z) :
  ex <= ex' -> shl_align mx ex ex' = (mx, ex).
Proof.
  intros H. unfold shl_align. destruct (ex' - ex) as [ | p | p] eqn:Hd; try reflexivity. lia.
Qed.

Lemma leb_same_exponent (a b : positive) (e : Z) :
  Zpos a <= Zpos b -> leb (S754_finite false a e) (S754_finite false b e) = true.
Proof.
  intros H. unfold leb, SFleb, SFcompare. rewrite Z.compare_refl.
  change (Pos.compare_cont Eq a b) with (Pos.compare a b).
  destruct (Pos.compare_spec a b); try reflexivity. lia.
Qed.

(** [Math.random() * 8] is exact: scaling by a power of two loses no bit. *)
Lemma mul_8_exact (m : positive) (e : Z) :
  Math_random_range (S754_finite false m e) = true ->
  exists m8 e8,
    mul (S754_finite false m e) (of_Z 8) = S754_finite false m8 e8 /\
    e8 <= -50 /\ Zpos m8 < 8 * 2 ^ (- e8) /\
    0 <= e + 3 - e8 /\ Zpos m8 = Zpos m * 2 ^ (e + 3 - e8).
Proof.
  intros Hr. destruct (random_finite_inv m e Hr) as [He [Hm Hcanon]].
  rewrite of_Z_8, mul_finite. cbn [xorb].
  set (M := (m * 4503599627370496)%positive).
  set (E := e + -49).
  destruct (binary_round_aux_nearest false M E) as [q' [_ [Hexact ->]]].
  rewrite fexp64 in Hexact |- *.
  set (d := Zpos (digits2_pos M)) in *.
  set (n := Z.max 0 (Z.max (d + E - 53) (-1074) - E)) in *.
  assert (HM : Zpos M = 4503599627370496 * Zpos m) by (unfold M; lia).
  assert (HT : 2 ^ 53 <= 2 ^ (- e)) by (apply Z.pow_le_mono_r; lia).
  change (2 ^ 53) with 9007199254740992 in *.
  assert (Hd : d <= 3 - E).
  { apply digits2_pos_le; [unfold E; lia |].
    replace (3 - E) with (52 + - e) by (unfold E; lia).
    rewrite pow2_split by lia. change (2 ^ 52) with 4503599627370496.
    assert (0 < 2 ^ (- e)) by (apply pow2_pos; lia). nia. }
  assert (Hd1 : d <= 105).
  { apply digits2_pos_le; [lia |].
    change (2 ^ 105) with (4503599627370496 * 9007199254740992). nia. }
  assert (Hn : 0 <= n <= 52) by (unfold n, E; lia).
  assert (He' : E + n <= -50) by (unfold n, E in *; lia).
  assert (Hfe : Z.max (d + E - 53) (-1074) <= E + n) by (unfold n; lia).
  set (e' := E + n) in *.
  assert (HP : 0 < 2 ^ n) by (apply pow2_pos; lia).
  assert (H52 : 4503599627370496 = 2 ^ (52 - n) * 2 ^ n).
  { rewrite <- pow2_split by lia. replace (52 - n + n) with 52 by lia. reflexivity. }
  assert (HQ : 0 < 2 ^ (52 - n)) by (apply pow2_pos; lia).
  assert (Hq' : q' = Zpos m * 2 ^ (52 - n)).
  { rewrite Hexact.
    - rewrite HM, H52.
      replace (2 ^ (52 - n) * 2 ^ n * Zpos m) with (Zpos m * 2 ^ (52 - n) * 2 ^ n) by lia.
      apply Z.div_mul. lia.
    - rewrite HM, H52.
      replace (2 ^ (52 - n) * 2 ^ n * Zpos m) with (Zpos m * 2 ^ (52 - n) * 2 ^ n) by lia.
      apply Z.mod_mul. lia. }
  assert (Hq'pos : 0 < q') by nia.
  destruct q' as [ | m8 | m8]; try lia.
  assert (Hval : Zpos m8 * 2 ^ n = Zpos M) by (rewrite Hq', HM, H52; lia).
  unfold renormalised. rewrite fexp64. cbn [Zdigits2].
  assert (Hdq : Zpos (digits2_pos m8) <= d - n).
  { apply digits2_pos_le; [pose proof (digits2_pos_gt M 52 ltac:(
      change (2 ^ 52) with 4503599627370496; lia)); unfold d; lia |].
    pose proof (digits2_pos_bounds M) as [_ Hhi]. fold d in Hhi.
    replace d with (d - n + n) in Hhi by lia.
    rewrite pow2_split in Hhi; [| | lia].
    - apply (Z.mul_lt_mono_pos_r (2 ^ n)); lia.
    - pose proof (digits2_pos_gt M 52 ltac:(change (2 ^ 52) with 4503599627370496; lia)).
      unfold d. lia. }
  replace (Z.max 0 (Z.max (Zpos (digits2_pos m8) + e' - 53) (-1074) - e')) with 0
    by (unfold e' in *; lia).
  change (2 ^ 0) with 1. rewrite Z.div_1_r, Z.add_0_r.
  replace (e' <=? emax - prec) with true
    by (symmetry; apply Z.leb_le; unfold emax, prec; lia).
  exists m8, e'. split; [reflexivity |]. split; [exact He' |].
  assert (HW : 8 * 2 ^ (- e') * 2 ^ n = 4503599627370496 * 2 ^ (- e)).
  { replace (8 * 2 ^ (- e') * 2 ^ n) with (8 * (2 ^ (- e') * 2 ^ n)) by lia.
    rewrite <- pow2_split by lia. replace (- e' + n) with (49 + - e) by (unfold e', E; lia).
    rewrite pow2_split by lia. change (2 ^ 49) with 562949953421312. lia. }
  split; [apply (Z.mul_lt_mono_pos_r (2 ^ n)); [lia |]; rewrite HW, Hval, HM; lia |].
  split; [unfold e', E; lia |].
  rewrite Hq'. f_equal. f_equal. unfold e', E. lia.
Qed.

Lemma digits2_pos_eq (p : positive) (k : Z) :
  2 ^ (k - 1) <= Zpos p < 2 ^ k -> Zpos (digits2_pos p) = k.
Proof.
  intros [Hlo Hhi].
  assert (0 <= k).
  { destruct (Z_lt_le_dec k 0) as [Hk | Hk]; [| exact Hk].
    rewrite Z.pow_neg_r in Hhi by lia. lia. }
  pose proof (digits2_pos_le p k ltac:(lia) Hhi).
  pose proof (digits2_pos_gt p (k - 1) Hlo). lia.
Qed.

(** [x + 92] for a double [0 < x < 8]: the sum is rounded once, at the
    exponent of the binade [64, 128). *)
Lemma add_92_range (m8 : positive) (e8 : Z) :
  e8 <= -50 -> Zpos m8 < 8 * 2 ^ (- e8) ->
  exists p,
    add (S754_finite false m8 e8) (of_Z 92) = S754_finite false p (-46) /\
    6473924464345088 <= Zpos p <= 7036874417766400 /\
    nearest (Zpos m8 + 6473924464345088 * 2 ^ (-46 - e8)) (-46 - e8) (Zpos p).
Proof.
  intros He8 Hm8.
  rewrite of_Z_92, add_finite. cbn [cond_Zopp]. rewrite Z.min_l by lia.
  destruct (shl_align_down m8 e8 e8 ltac:(lia)) as [_ H1].
  destruct (shl_align_down 6473924464345088 (-46) e8 ltac:(lia)) as [_ H2].
  rewrite Z.sub_diag, Z.mul_1_r in H1.
  set (a := fst (shl_align m8 e8 e8)) in *.
  set (b := fst (shl_align 6473924464345088 (-46) e8)) in *.
  rewrite <- Pos2Z.inj_add. cbn [binary_normalize]. unfold binary_round.
  set (n := -46 - e8) in *.
  assert (Hn : 4 <= n) by (unfold n; lia).
  assert (HP : 0 < 2 ^ n) by (apply pow2_pos; lia).
  assert (HW : 2 ^ (- e8) = 70368744177664 * 2 ^ n).
  { replace (- e8) with (46 + n) by (unfold n; lia). rewrite pow2_split by lia. reflexivity. }
  assert (HM2 : Zpos (a + b) = Zpos m8 + 6473924464345088 * 2 ^ n) by lia.
  assert (Hdig : Zpos (digits2_pos (a + b)) = 7 - e8).
  { apply digits2_pos_eq.
    replace (7 - e8 - 1) with (6 + - e8) by lia. replace (7 - e8) with (7 + - e8) by lia.
    rewrite !pow2_split by lia. rewrite HW. change (2 ^ 6) with 64. change (2 ^ 7) with 128.
    lia. }
  rewrite Hdig, fexp64. replace (Z.max (7 - e8 + e8 - 53) (-1074)) with (-46) by lia.
  rewrite shl_align_up by lia.
  destruct (binary_round_aux_nearest false (a + b) e8) as [q' [Hnear [_ ->]]].
  unfold nearest in Hnear. rewrite Hdig, fexp64 in Hnear |- *.
  replace (Z.max 0 (Z.max (7 - e8 + e8 - 53) (-1074) - e8)) with n in * by (unfold n; lia).
  replace (e8 + n) with (-46) by (unfold n; lia).
  set (P := 2 ^ n) in *.
  pose proof (Z.div_mod (Zpos (a + b)) P ltac:(lia)) as Hdm.
  pose proof (Z.mod_pos_bound (Zpos (a + b)) P ltac:(lia)) as Hmb.
  assert (Hq : 6473924464345088 <= Zpos (a + b) / P < 7036874417766400).
  { split.
    - apply Z.div_le_lower_bound; lia.
    - apply Z.div_lt_upper_bound; lia. }
  assert (Hq' : 6473924464345088 <= q' <= 7036874417766400) by (destruct Hnear as [[-> _] | [-> _]]; lia).
  destruct q' as [ | p | p]; try lia.
  unfold renormalised. rewrite fexp64. cbn [Zdigits2].
  assert (Hdp : Zpos (digits2_pos p) = 53).
  { apply digits2_pos_eq. change (2 ^ (53 - 1)) with 4503599627370496.
    change (2 ^ 53) with 9007199254740992. lia. }
  rewrite Hdp. exists p. split; [| split; [exact Hq' |]].
  - change (Z.max 0 (Z.max (53 + -46 - 53) (-1074) - -46)) with 0.
    change (2 ^ 0) with 1. rewrite Z.div_1_r. reflexivity.
  - unfold nearest. fold n. fold P. rewrite <- HM2. exact Hnear.
Qed.

(** * The simulated sample *)

Lemma add_40_exact (F : Z) :
  0 <= F <= 50 -> add (of_Z F) (of_Z 40) = of_Z (F + 40).
Proof.
  intros H. enumerate_upto F 51%nat ltac:(vm_compute; reflexivity).
Qed.

Lemma between_40_90 (F : Z) :
  0 <= F <= 50 ->
  leb (of_Z 40) (of_Z (F + 40)) = true /\ leb (of_Z (F + 40)) (of_Z 90) = true.
Proof.
  intros H. enumerate_upto F 51%nat ltac:(vm_compute; split; reflexivity).
Qed.

Lemma Math_random_range_inv (r : number) :
  Math_random_range r = true ->
  r = S754_zero false \/ exists m e, r = S754_finite false m e.
Proof.
  unfold Math_random_range. rewrite !andb_true_iff. intros [[_ Hs] Hlt].
  destruct r as [[ | ] | s | | [ | ] m e]; try discriminate Hs.
  - now left.
  - destruct s; discriminate.
  - discriminate.
  - right. now exists m, e.
Qed.

Lemma simulated_HRV_integer (r : number) :
  Math_random_range r = true ->
  exists F, 0 <= F <= 50 /\ simulated_HRV r = of_Z (F + 40).
Proof.
  intros Hr. destruct (Math_random_range_inv r Hr) as [-> | [m [e ->]]].
  - exists 0. split; [lia | vm_compute; reflexivity].
  - destruct (floor_mul_51 m e Hr) as [F [HF Hfl]].
    exists F. split; [exact HF |].
    unfold simulated_HRV. rewrite Hfl. now apply add_40_exact.
Qed.

Lemma simulated_SpO2_mantissa (r : number) :
  Math_random_range r = true ->
  exists p,
    simulated_SpO2 r = S754_finite false p (-46) /\
    6473924464345088 <= Zpos p <= 7036874417766400.
Proof.
  intros Hr. destruct (Math_random_range_inv r Hr) as [-> | [m [e ->]]].
  - exists 6473924464345088%positive. split; [vm_compute; reflexivity | lia].
  - destruct (mul_8_exact m e Hr) as [m8 [e8 [Hmul [He8 [Hm8 _]]]]].
    unfold simulated_SpO2. rewrite Hmul.
    destruct (add_92_range m8 e8 He8 Hm8) as [p [Hadd [Hp _]]]. eauto.
Qed.

(** * The handlers *)

Lemma Get_not_nullish {host : Host} (v : value) (k : string) :
  is_nullish v = false -> exists x, Get v k = inr x.
Proof. destruct v; cbn; try discriminate; eauto. Qed.

Lemma Get_nullish {host : Host} (v : value) (k : string) :
  is_nullish v = true -> Get v k = inl (TypeError (TypeErrorMessage v k)).
Proof. destruct v; cbn; try discriminate; reflexivity. Qed.

Lemma Get_history_object {host : Host} (v h : value) :
  Get v "history" = inr h -> truthy h = true -> truthy v = true.
Proof.
  destruct v as [ | | b | x | s | items | fields]; cbn; intros H Ht;
    try discriminate; try reflexivity; inversion H; subst; discriminate.
Qed.

(** [loadHistory] on a settled request. *)
Lemma loadHistory_resolved {host : Host} (response : Response) (s : State) :
  loadHistory (Resolved response) s =
  match Get (data response) "history" with
  | inr h =>
      if truthy (data response) && truthy h then
        {| completion := inr tt;
           store := {| stressScore := stressScore s; sensorData := sensorData s;
                       history := h; lastIndex := lastIndex s |};
           trace := [HttpGet history_url;
                     ConsoleLog [VStr "History loaded:"; data response]] |}
      else
        {| completion := inr tt; store := s;
           trace := [HttpGet history_url;
                     ConsoleLog [VStr "History loaded:"; data response]] |}
  | inl e =>
      {| completion := inr tt; store := s;
         trace := [HttpGet history_url;
                   ConsoleLog [VStr "History loaded:"; data response]] |}
  end.
Proof.
  unfold loadHistory, try_catch, bind, await, lift, emit, console_log, ret, throw.
  cbn. destruct (truthy (data response)) eqn:Ht; cbn.
  - destruct (Get (data response) "history") as [e | h] eqn:Hg; cbn.
    + destruct (data response); cbn in *; discriminate.
    + destruct (truthy h); cbn; reflexivity.
  - destruct (Get (data response) "history") as [e | h]; reflexivity.
Qed.

Lemma loadHistory_rejected {host : Host} (error : exn) (s : State) :
  loadHistory (Rejected error) s =
  {| completion := inr tt; store := s;
     trace := [HttpGet history_url; ConsoleError "Error loading history:" error] |}.
Proof. reflexivity. Qed.

Lemma loadHistory_completes {host : Host} (history_reply : axios_result) (s : State) :
  completion (loadHistory history_reply s) = inr tt.
Proof.
  destruct history_reply as [resp | e];
    [rewrite loadHistory_resolved | rewrite loadHistory_rejected; reflexivity].
  destruct (Get (data resp) "history"); [reflexivity |].
  destruct (truthy (data resp) && truthy v); reflexivity.
Qed.

(** [simulatePredict], by how the predict request settles. *)
Lemma simulatePredict_rejected {host : Host} (r1 r2 : number) (error : exn)
    (history_reply : axios_result) (s : State) :
  simulatePredict r1 r2 (Rejected error) history_reply s =
  {| completion := inr tt; store := s;
     trace := [HttpPost predict_url (simulated_data r1 r2);
               Alert ("Error: " ++ message error)%string] |}.
Proof. reflexivity. Qed.

Lemma simulatePredict_no_body {host : Host} (r1 r2 : number) (response : Response)
    (history_reply : axios_result) (s : State) :
  is_nullish (data response) = true ->
  simulatePredict r1 r2 (Resolved response) history_reply s =
  {| completion := inr tt; store := s;
     trace := [HttpPost predict_url (simulated_data r1 r2);
               Alert ("Error: " ++ TypeErrorMessage (data response) "stress_score")%string] |}.
Proof.
  intros Hn. unfold simulatePredict, try_catch, bind, await, lift, emit, alert, ret, throw.
  cbn. rewrite (Get_nullish _ _ Hn). reflexivity.
Qed.

Lemma simulatePredict_resolved {host : Host} (r1 r2 : number) (response : Response)
    (history_reply : axios_result) (s : State) (score index : value) :
  Get (data response) "stress_score" = inr score ->
  Get (data response) "new_index" = inr index ->
  let reload :=
    loadHistory history_reply
      {| stressScore := score; sensorData := simulated_data r1 r2;
         history := history s; lastIndex := index |} in
  simulatePredict r1 r2 (Resolved response) history_reply s =
  {| completion := inr tt; store := store reload;
     trace := [HttpPost predict_url (simulated_data r1 r2);
               ConsoleLog [VStr "New prediction saved at index:"; index]]
              ++ trace reload |}.
Proof.
  intros Hs Hi reload.
  pose proof (loadHistory_completes history_reply
                {| stressScore := score; sensorData := simulated_data r1 r2;
                   history := history s; lastIndex := index |}) as Hc.
  fold reload in Hc.
  unfold simulatePredict, try_catch, bind, await, lift, emit, alert, console_log, ret, throw.
  cbn. rewrite Hs. cbn. rewrite Hi. cbn. fold reload.
  clearbody reload. destruct reload as [c st tr]. cbn in Hc |- *. subst c. reflexivity.
Qed.

(** [submitFeedback], first with an index in the render, then without. *)
Lemma submitFeedback_rejected {host : Host} (s : State) (feedback : value)
    (error : exn) (history_reply : axios_result) :
  is_null (lastIndex s) = false ->
  click_feedback feedback (Rejected error) history_reply s =
  {| completion := inr tt; store := s;
     trace := [HttpPost feedback_url
                 (VObj [("index", lastIndex s); ("feedback", feedback)]);
               Alert ("Feedback error: " ++ message error)%string;
               ConsoleError "Feedback error:" error] |}.
Proof.
  intros Hn. unfold click_feedback, submitFeedback. rewrite Hn. reflexivity.
Qed.

Lemma submitFeedback_no_body {host : Host} (s : State) (feedback : value)
    (response : Response) (history_reply : axios_result) :
  is_null (lastIndex s) = false ->
  is_nullish (data response) = true ->
  click_feedback feedback (Resolved response) history_reply s =
  let error := TypeError (TypeErrorMessage (data response) "index") in
  {| completion := inr tt; store := s;
     trace := [HttpPost feedback_url
                 (VObj [("index", lastIndex s); ("feedback", feedback)]);
               Alert ("Feedback error: " ++ message error)%string;
               ConsoleError "Feedback error:" error] |}.
Proof.
  intros Hn Hd. unfold click_feedback, submitFeedback. rewrite Hn.
  unfold try_catch, bind, await, lift, emit, alert, console_error, ret, throw.
  cbn. rewrite (Get_nullish _ _ Hd). reflexivity.
Qed.

Lemma submitFeedback_resolved {host : Host} (s : State) (feedback : value)
    (response : Response) (history_reply : axios_result) (index new_score : value) :
  is_null (lastIndex s) = false ->
  Get (data response) "index" = inr index ->
  Get (data response) "new_score" = inr new_score ->
  click_feedback feedback (Resolved response) history_reply s =
  {| completion := inr tt; store := store (loadHistory history_reply s);
     trace := [HttpPost feedback_url
                 (VObj [("index", lastIndex s); ("feedback", feedback)]);
               Alert (confirmation feedback index new_score)]
              ++ trace (loadHistory history_reply s) |}.
Proof.
  intros Hn Hi Hs. unfold click_feedback, submitFeedback. rewrite Hn.
  unfold try_catch, bind, await, lift, emit, alert, console_error, ret, throw.
  cbn. rewrite Hi. cbn. rewrite Hs. cbn.
  pose proof (loadHistory_completes history_reply s) as Hc.
  destruct (loadHistory history_reply s) as [c st tr]. cbn in Hc |- *. subst c. reflexivity.
Qed.

(** Without an index in the render, the handler returns before the request:
    the branch that calls [setLastIndex] does not change the [lastIndex] the
    second test reads. *)
Lemma submitFeedback_unset {host : Host} (s : State) (feedback : value)
    (feedback_reply history_reply : axios_result) :
  lastIndex s = VNull ->
  let r := click_feedback feedback feedback_reply history_reply s in
  history (store r) = history s /\
  ((trace r = [] /\ exists e, completion r = inl e) \/
   (trace r = [Alert "Please simulate a reading first"] /\ completion r = inr tt)).
Proof.
  intros Hn r. subst r. unfold click_feedback, submitFeedback. rewrite Hn.
  unfold try_catch, bind, await, lift, emit, alert, ret, throw. cbn.
  destruct (Get (history s) "length") as [e | len]; cbn; [split; [reflexivity | left; eauto] |].
  destruct (gt len (VNum (of_Z 0))); cbn; [| split; [reflexivity | right; split; reflexivity]].
  destruct (GetIndex (history s) (sub (ToNumber len) (of_Z 1))) as [e | last]; cbn;
    [split; [reflexivity | left; eauto] |].
  destruct (Get last "index") as [e | index]; cbn; [split; [reflexivity | left; eauto] |].
  split; [reflexivity | right; split; reflexivity].
Qed.

(** * The specified behaviour *)

(** C1 (as the code behaves).  The backend scored a sample without giving
    its row ([new_index: null]) and the history holds a row of index 7: the
    prediction panel with the feedback buttons is rendered and no index is
    remembered.  A click on "Good" then shows the "simulate first" message
    and sends nothing: the index of the last history row is only stored for
    the next render. *)
Theorem submitFeedback_fallback_misses_this_click :
  let s := store (simulatePredict (host := sample_host) (of_Z 0) (of_Z 0)
                    (Resolved sample_prediction_without_index)
                    (Resolved sample_history) initial) in
  s = {| stressScore := VNum sample_score;
         sensorData := VObj [("HRV", VNum (of_Z 40)); ("SpO2", VNum (of_Z 92))];
         history := VArr [sample_row];
         lastIndex := VNull |} /\
  (exists panel shown,
     StressMonitor_view (host := sample_host) s =
     inr {| prediction := Some panel; chart := Some shown |}) /\
  click_feedback (host := sample_host) (VStr "good")
    (Resolved sample_recorded) (Resolved sample_history) s =
  {| completion := inr tt;
     store := {| stressScore := VNum sample_score;
                 sensorData := VObj [("HRV", VNum (of_Z 40)); ("SpO2", VNum (of_Z 92))];
                 history := VArr [sample_row];
                 lastIndex := VNum (of_Z 7) |};
     trace := [Alert "Please simulate a reading first"] |}.
Proof.
  cbv zeta. split; [vm_compute; reflexivity |]. split.
  - eexists. eexists. vm_compute. reflexivity.
  - vm_compute. reflexivity.
Qed.

(** C2.  After a simulate whose predict request resolved with a body, the
    remembered index is the body's [new_index]; and a feedback click in any
    later state that still holds that index, the index not being [null],
    starts by POSTing exactly that index with the label. *)
Theorem simulate_then_feedback_uses_new_index {host : Host}
    (r1 r2 : number) (response : Response) (history_reply : axios_result) (s : State) :
  is_nullish (data response) = false ->
  exists index,
    Get (data response) "new_index" = inr index /\
    lastIndex (store (simulatePredict r1 r2 (Resolved response) history_reply s)) = index /\
    forall (s' : State) (feedback : value) (feedback_reply history_reply' : axios_result),
      lastIndex s' = index -> is_null index = false ->
      exists rest,
        trace (click_feedback feedback feedback_reply history_reply' s') =
        HttpPost feedback_url (VObj [("index", index); ("feedback", feedback)]) :: rest.
Proof.
  intros Hd.
  destruct (Get_not_nullish (data response) "stress_score" Hd) as [score Hs].
  destruct (Get_not_nullish (data response) "new_index" Hd) as [index Hi].
  exists index. split; [exact Hi |]. split.
  - rewrite (simulatePredict_resolved r1 r2 response history_reply s score index Hs Hi).
    cbn [store].
    destruct history_reply as [resp | e];
      [rewrite loadHistory_resolved | rewrite loadHistory_rejected; reflexivity].
    destruct (Get (data resp) "history"); [reflexivity |].
    destruct (truthy (data resp) && truthy v); reflexivity.
  - intros s' feedback feedback_reply history_reply' Hl Hn. subst index.
    destruct feedback_reply as [resp | e].
    + destruct (is_nullish (data resp)) eqn:Hb.
      * rewrite (submitFeedback_no_body s' feedback resp history_reply' Hn Hb).
        cbn. eauto.
      * destruct (Get_not_nullish (data resp) "index" Hb) as [i Hgi].
        destruct (Get_not_nullish (data resp) "new_score" Hb) as [n Hgn].
        rewrite (submitFeedback_resolved s' feedback resp history_reply' i n Hn Hgi Hgn).
        cbn. eauto.
    + rewrite (submitFeedback_rejected s' feedback e history_reply' Hn). cbn. eauto.
Qed.

Lemma simulate_then_feedback_uses_new_index_witness :
  is_nullish (data sample_prediction) = false /\
  exists index,
    Get (host := sample_host) (data sample_prediction) "new_index" = inr index /\
    lastIndex (store (simulatePredict (host := sample_host) below_one below_one
                        (Resolved sample_prediction) (Resolved sample_history) initial))
    = index /\
    forall (s' : State) (feedback : value) (feedback_reply history_reply' : axios_result),
      lastIndex s' = index -> is_null index = false ->
      exists rest,
        trace (click_feedback (host := sample_host) feedback feedback_reply history_reply' s') =
        HttpPost feedback_url (VObj [("index", index); ("feedback", feedback)]) :: rest.
Proof.
  split; [reflexivity |].
  apply (simulate_then_feedback_uses_new_index (host := sample_host)). reflexivity.
Defined.

(** C3 (as stated, refuted).  [Math.random()] may return [1 - 2^-53]; then
    [random * 8 + 92] is [100 - 2^-50], which rounds to [100]: the generated
    SpO2 is [100], not below it. *)
Lemma simulated_SpO2_reaches_100 :
  Math_random_range below_one = true /\
  simulated_SpO2 below_one = of_Z 100 /\
  ltb (simulated_SpO2 below_one) (of_Z 100) = false.
Proof. vm_compute. repeat split. Qed.

(** C3 (amended).  For every pair of numbers [Math.random()] may return, the
    generated HRV lies in the closed interval [40, 90] and the generated
    SpO2 in the closed interval [92, 100]. *)
Theorem simulated_sample_ranges (random1 random2 : number) :
  Math_random_range random1 = true ->
  Math_random_range random2 = true ->
  leb (of_Z 40) (simulated_HRV random1) = true /\
  leb (simulated_HRV random1) (of_Z 90) = true /\
  leb (of_Z 92) (simulated_SpO2 random2) = true /\
  leb (simulated_SpO2 random2) (of_Z 100) = true.
Proof.
  intros H1 H2.
  destruct (simulated_HRV_integer random1 H1) as [F [HF ->]].
  destruct (simulated_SpO2_mantissa random2 H2) as [p [-> Hp]].
  destruct (between_40_90 F HF) as [Hlo Hhi].
  rewrite of_Z_92, of_Z_100.
  repeat split; try assumption; apply leb_same_exponent; lia.
Qed.

Lemma simulated_sample_ranges_witness :
  Math_random_range (of_Z 0) = true /\
  Math_random_range below_one = true /\
  leb (of_Z 40) (simulated_HRV (of_Z 0)) = true /\
  leb (simulated_HRV (of_Z 0)) (of_Z 90) = true /\
  leb (of_Z 92) (simulated_SpO2 below_one) = true /\
  leb (simulated_SpO2 below_one) (of_Z 100) = true.
Proof.
  split; [reflexivity |]. split; [reflexivity |].
  apply (simulated_sample_ranges (of_Z 0) below_one); reflexivity.
Defined.

Lemma HRV_preimage_correct (F : Z) :
  0 <= F <= 50 ->
  Math_random_range (HRV_preimage (F + 40)) = true /\
  simulated_HRV (HRV_preimage (F + 40)) = of_Z (F + 40).
Proof.
  intros H. enumerate_upto F 51%nat ltac:(vm_compute; split; reflexivity).
Qed.

(** C9.  Every simulated HRV is one of the integers 40, 41, ..., 90, and
    each of them is the HRV of some number [Math.random()] may return. *)
Theorem simulated_HRV_values :
  (forall random, Math_random_range random = true ->
     exists k, 40 <= k <= 90 /\ simulated_HRV random = of_Z k) /\
  (forall k, 40 <= k <= 90 ->
     exists random, Math_random_range random = true /\ simulated_HRV random = of_Z k).
Proof.
  split.
  - intros random Hr. destruct (simulated_HRV_integer random Hr) as [F [HF HH]].
    exists (F + 40). split; [lia | exact HH].
  - intros k Hk. exists (HRV_preimage k).
    replace k with (k - 40 + 40) by lia. apply HRV_preimage_correct. lia.
Qed.

Lemma simulated_HRV_values_witness :
  (exists k, 40 <= k <= 90 /\ simulated_HRV below_one = of_Z k) /\
  (exists random, Math_random_range random = true /\ simulated_HRV random = of_Z 57).
Proof.
  destruct simulated_HRV_values as [Hall Hsome]. split.
  - apply Hall. reflexivity.
  - apply Hsome. lia.
Defined.

(** C4.  A rejected predict POST leaves the whole store (score, sensor
    snapshot, history, remembered index) as it was; and so does a feedback
    click whose POST was sent and rejected. *)
Theorem failed_post_leaves_state {host : Host} (s : State) (error : exn)
    (history_reply : axios_result) :
  (forall r1 r2,
     store (simulatePredict r1 r2 (Rejected error) history_reply s) = s) /\
  (forall feedback body,
     In (HttpPost feedback_url body)
        (trace (click_feedback feedback (Rejected error) history_reply s)) ->
     store (click_feedback feedback (Rejected error) history_reply s) = s).
Proof.
  split.
  - intros r1 r2. rewrite simulatePredict_rejected. reflexivity.
  - intros feedback body Hin.
    destruct (is_null (lastIndex s)) eqn:Hn.
    + exfalso. assert (Hl : lastIndex s = VNull) by (destruct (lastIndex s); now try discriminate).
      destruct (submitFeedback_unset s feedback (Rejected error) history_reply Hl)
        as [_ [[Ht _] | [Ht _]]]; rewrite Ht in Hin; cbn in Hin.
      * exact Hin.
      * destruct Hin as [Hin | []]. discriminate Hin.
    + rewrite (submitFeedback_rejected s feedback error history_reply Hn). reflexivity.
Qed.

Lemma failed_post_leaves_state_witness :
  let s := {| stressScore := VNum sample_score;
              sensorData := simulated_data below_one below_one;
              history := VArr [sample_row];
              lastIndex := VNum (of_Z 7) |} in
  store (simulatePredict (host := sample_host) below_one below_one
           (Rejected network_error) (Resolved sample_history) s) = s /\
  In (HttpPost feedback_url (VObj [("index", VNum (of_Z 7)); ("feedback", VStr "good")]))
     (trace (click_feedback (host := sample_host) (VStr "good")
               (Rejected network_error) (Resolved sample_history) s)) /\
  store (click_feedback (host := sample_host) (VStr "good")
           (Rejected network_error) (Resolved sample_history) s) = s.
Proof.
  intros s.
  destruct (failed_post_leaves_state (host := sample_host) s network_error
              (Resolved sample_history)) as [Hp Hf].
  assert (Hin : In (HttpPost feedback_url
                      (VObj [("index", VNum (of_Z 7)); ("feedback", VStr "good")]))
                   (trace (click_feedback (host := sample_host) (VStr "good")
                             (Rejected network_error) (Resolved sample_history) s)))
    by (left; reflexivity).
  split; [apply Hp |]. split; [exact Hin |]. exact (Hf _ _ Hin).
Defined.

(** C5.  With no remembered index and an empty history, a feedback click
    shows "Please simulate a reading first", sends no request and changes
    nothing. *)
Theorem submitFeedback_nothing_to_rate {host : Host} (s : State) (feedback : value)
    (feedback_reply history_reply : axios_result) :
  lastIndex s = VNull ->
  history s = VArr [] ->
  click_feedback feedback feedback_reply history_reply s =
  {| completion := inr tt; store := s;
     trace := [Alert "Please simulate a reading first"] |}.
Proof.
  intros Hl Hh. unfold click_feedback, submitFeedback. rewrite Hl, Hh. reflexivity.
Qed.

Lemma submitFeedback_nothing_to_rate_witness :
  lastIndex initial = VNull /\
  history initial = VArr [] /\
  click_feedback (host := sample_host) (VStr "bad")
    (Resolved sample_recorded) (Resolved sample_history) initial =
  {| completion := inr tt; store := initial;
     trace := [Alert "Please simulate a reading first"] |}.
Proof.
  split; [reflexivity |]. split; [reflexivity |].
  apply (submitFeedback_nothing_to_rate (host := sample_host)); reflexivity.
Defined.

(** C6.  A history load whose response carries a sequence in its [history]
    field makes that sequence the displayed history, whatever was displayed
    before, and touches no other cell; and after any load the displayed
    history is either the one before or exactly the response's field. *)
Theorem loadHistory_replaces {host : Host} (s : State) :
  (forall response items,
     Get (data response) "history" = inr (VArr items) ->
     store (loadHistory (Resolved response) s) =
     {| stressScore := stressScore s; sensorData := sensorData s;
        history := VArr items; lastIndex := lastIndex s |}) /\
  (forall history_reply,
     history (store (loadHistory history_reply s)) = history s \/
     exists response,
       history_reply = Resolved response /\
       Get (data response) "history" = inr (history (store (loadHistory history_reply s)))).
Proof.
  split.
  - intros response items Hg. rewrite loadHistory_resolved, Hg.
    rewrite (Get_history_object _ _ Hg eq_refl). reflexivity.
  - intros [response | e]; [| left; reflexivity].
    rewrite loadHistory_resolved.
    destruct (Get (data response) "history") as [e | h] eqn:Hg; [left; reflexivity |].
    destruct (truthy (data response) && truthy h); [| left; reflexivity].
    right. exists response. split; [reflexivity | exact Hg].
Qed.

Lemma loadHistory_replaces_witness :
  Get (host := sample_host) (data sample_history) "history" = inr (VArr [sample_row]) /\
  store (loadHistory (host := sample_host) (Resolved sample_history) initial) = loaded.
Proof.
  split; [reflexivity |].
  destruct (loadHistory_replaces (host := sample_host) initial) as [H _].
  apply (H sample_history [sample_row]). reflexivity.
Defined.

Lemma loadHistory_frame {host : Host} (history_reply : axios_result) (s : State) :
  stressScore (store (loadHistory history_reply s)) = stressScore s /\
  sensorData (store (loadHistory history_reply s)) = sensorData s /\
  lastIndex (store (loadHistory history_reply s)) = lastIndex s.
Proof.
  destruct history_reply as [resp | e];
    [rewrite loadHistory_resolved | rewrite loadHistory_rejected; now repeat split].
  destruct (Get (data resp) "history"); [now repeat split |].
  destruct (truthy (data resp) && truthy v); now repeat split.
Qed.

(** C7 (as stated, refuted).  When the history request is rejected,
    [loadHistory] writes the error to the console and shows no alert. *)
Lemma loadHistory_failure_is_not_alerted :
  trace (loadHistory (host := sample_host) (Rejected network_error) initial) =
    [HttpGet history_url; ConsoleError "Error loading history:" network_error] /\
  forall text,
    ~ In (Alert text)
         (trace (loadHistory (host := sample_host) (Rejected network_error) initial)).
Proof.
  split; [reflexivity |].
  intros text [H | [H | []]]; discriminate H.
Qed.

(** C7 (amended).  A rejected predict or feedback POST, a response of either
    without a body, and a feedback click with no index and an empty history
    each end inside the handler with exactly one alert; a rejected history
    request ends inside [loadHistory] with a [console.error] and no alert. *)
Theorem failures_are_caught {host : Host} (s : State) (error : exn)
    (history_reply : axios_result) :
  (forall r1 r2,
     simulatePredict r1 r2 (Rejected error) history_reply s =
     {| completion := inr tt; store := s;
        trace := [HttpPost predict_url (simulated_data r1 r2);
                  Alert ("Error: " ++ message error)%string] |}) /\
  (forall r1 r2 response,
     is_nullish (data response) = true ->
     simulatePredict r1 r2 (Resolved response) history_reply s =
     {| completion := inr tt; store := s;
        trace := [HttpPost predict_url (simulated_data r1 r2);
                  Alert ("Error: " ++ TypeErrorMessage (data response) "stress_score")%string] |}) /\
  (forall feedback,
     is_null (lastIndex s) = false ->
     click_feedback feedback (Rejected error) history_reply s =
     {| completion := inr tt; store := s;
        trace := [HttpPost feedback_url
                    (VObj [("index", lastIndex s); ("feedback", feedback)]);
                  Alert ("Feedback error: " ++ message error)%string;
                  ConsoleError "Feedback error:" error] |}) /\
  (forall feedback response,
     is_null (lastIndex s) = false ->
     is_nullish (data response) = true ->
     click_feedback feedback (Resolved response) history_reply s =
     {| completion := inr tt; store := s;
        trace := [HttpPost feedback_url
                    (VObj [("index", lastIndex s); ("feedback", feedback)]);
                  Alert ("Feedback error: " ++ TypeErrorMessage (data response) "index")%string;
                  ConsoleError "Feedback error:"
                    (TypeError (TypeErrorMessage (data response) "index"))] |}) /\
  (forall feedback feedback_reply,
     lastIndex s = VNull -> history s = VArr [] ->
     click_feedback feedback feedback_reply history_reply s =
     {| completion := inr tt; store := s;
        trace := [Alert "Please simulate a reading first"] |}) /\
  loadHistory (Rejected error) s =
  {| completion := inr tt; store := s;
     trace := [HttpGet history_url; ConsoleError "Error loading history:" error] |}.
Proof.
  repeat split.
  - intros. apply simulatePredict_no_body. assumption.
  - intros. now apply submitFeedback_rejected.
  - intros. now apply submitFeedback_no_body.
  - intros feedback feedback_reply Hl Hh.
    unfold click_feedback, submitFeedback. rewrite Hl, Hh. reflexivity.
Qed.

Lemma failures_are_caught_witness :
  let s := {| stressScore := VNum sample_score;
              sensorData := simulated_data below_one below_one;
              history := VArr [sample_row];
              lastIndex := VNum (of_Z 7) |} in
  is_null (lastIndex s) = false /\
  click_feedback (host := sample_host) (VStr "poor") (Rejected network_error)
    (Resolved sample_history) s =
  {| completion := inr tt; store := s;
     trace := [HttpPost feedback_url
                 (VObj [("index", VNum (of_Z 7)); ("feedback", VStr "poor")]);
               Alert "Feedback error: Network Error";
               ConsoleError "Feedback error:" network_error] |}.
Proof.
  intros s. split; [reflexivity |].
  destruct (failures_are_caught (host := sample_host) s network_error
              (Resolved sample_history)) as [_ [_ [H _]]].
  apply H. reflexivity.
Defined.

(** C8.  When the history request resolves without a body, or with a body
    whose [history] field is absent or falsy, [loadHistory] leaves the store
    as it was and reports nothing: it only logs the response. *)
Theorem loadHistory_ignores_missing_history {host : Host} (response : Response)
    (s : State) :
  truthy (data response) = false \/
  (exists h, Get (data response) "history" = inr h /\ truthy h = false) ->
  loadHistory (Resolved response) s =
  {| completion := inr tt; store := s;
     trace := [HttpGet history_url;
               ConsoleLog [VStr "History loaded:"; data response]] |}.
Proof.
  intros H. rewrite loadHistory_resolved.
  destruct (Get (data response) "history") as [e | h] eqn:Hg; [reflexivity |].
  destruct H as [Ht | [h' [Hh Ht]]].
  - rewrite Ht. reflexivity.
  - inversion Hh; subst. rewrite Ht, andb_false_r. reflexivity.
Qed.

Lemma loadHistory_ignores_missing_history_witness :
  (truthy (data {| data := VObj [("error", VStr "no data")] |}) = false \/
   exists h,
     Get (host := sample_host) (data {| data := VObj [("error", VStr "no data")] |})
       "history" = inr h /\ truthy h = false) /\
  loadHistory (host := sample_host)
    (Resolved {| data := VObj [("error", VStr "no data")] |}) loaded =
  {| completion := inr tt; store := loaded;
     trace := [HttpGet history_url;
               ConsoleLog [VStr "History loaded:";
                           VObj [("error", VStr "no data")]]] |}.
Proof.
  assert (H : truthy (data {| data := VObj [("error", VStr "no data")] |}) = false \/
              exists h,
                Get (host := sample_host)
                  (data {| data := VObj [("error", VStr "no data")] |})
                  "history" = inr h /\ truthy h = false)
    by (right; exists VUndefined; split; reflexivity).
  split; [exact H |].
  exact (loadHistory_ignores_missing_history (host := sample_host) _ loaded H).
Defined.

(** C10.  A rejected predict POST leaves the remembered index as it was; and
    whenever [simulatePredict] changes it, the predict request had resolved
    and the new index is its body's [new_index]. *)
Theorem simulatePredict_sets_lastIndex_on_success {host : Host} (r1 r2 : number)
    (history_reply : axios_result) (s : State) :
  (forall error,
     lastIndex (store (simulatePredict r1 r2 (Rejected error) history_reply s)) =
     lastIndex s) /\
  (forall predict_reply,
     lastIndex (store (simulatePredict r1 r2 predict_reply history_reply s)) <>
     lastIndex s ->
     exists response,
       predict_reply = Resolved response /\
       Get (data response) "new_index" =
       inr (lastIndex (store (simulatePredict r1 r2 predict_reply history_reply s)))).
Proof.
  split.
  - intros error. rewrite simulatePredict_rejected. reflexivity.
  - intros [response | error] Hne.
    + exists response. split; [reflexivity |].
      destruct (is_nullish (data response)) eqn:Hb.
      * rewrite simulatePredict_no_body in Hne by assumption. now contradiction Hne.
      * destruct (Get_not_nullish (data response) "stress_score" Hb) as [score Hs].
        destruct (Get_not_nullish (data response) "new_index" Hb) as [index Hi].
        rewrite (simulatePredict_resolved r1 r2 response history_reply s score index Hs Hi).
        cbn [store].
        destruct (loadHistory_frame history_reply
                    {| stressScore := score; sensorData := simulated_data r1 r2;
                       history := history s; lastIndex := index |}) as [_ [_ ->]].
        exact Hi.
    + rewrite simulatePredict_rejected in Hne. now contradiction Hne.
Qed.

Lemma simulatePredict_sets_lastIndex_on_success_witness :
  lastIndex (store (simulatePredict (host := sample_host) below_one below_one
                      (Rejected network_error) (Resolved sample_history) loaded)) =
  lastIndex loaded /\
  exists response,
    Resolved sample_prediction = Resolved response /\
    Get (host := sample_host) (data response) "new_index" =
    inr (lastIndex (store (simulatePredict (host := sample_host) below_one below_one
                             (Resolved sample_prediction) (Resolved sample_history)
                             loaded))).
Proof.
  destruct (simulatePredict_sets_lastIndex_on_success (host := sample_host)
              below_one below_one (Resolved sample_history) loaded) as [Hr Hs].
  split; [apply Hr |]. apply Hs. vm_compute. discriminate.
Defined.

(** * Integers in binary64

    Below [2^53] every integer is a number, and adding or subtracting one
    is exact. *)

Lemma digits2_pos_shift (z : positive) (k : Z) (m : positive) :
  0 <= k -> Zpos m = Zpos z * 2 ^ k ->
  Zpos (digits2_pos m) = Zpos (digits2_pos z) + k.
Proof.
  intros Hk Hm. apply digits2_pos_eq.
  pose proof (digits2_pos_bounds z) as [Hlo Hhi].
  assert (0 < 2 ^ k) by (apply pow2_pos; lia).
  replace (Zpos (digits2_pos z) + k - 1) with (Zpos (digits2_pos z) - 1 + k) by lia.
  rewrite !pow2_split by lia. rewrite Hm. split.
  - apply Z.mul_le_mono_nonneg_r; lia.
  - apply Z.mul_lt_mono_pos_r; lia.
Qed.

Lemma renormalised_fits (sx : bool) (q : positive) (e' : Z) :
  Z.max (Zpos (digits2_pos q) + e' - 53) (-1074) <= e' -> e' <= 971 ->
  renormalised sx (Zpos q) e' = S754_finite sx q e'.
Proof.
  intros Hf He. unfold renormalised. rewrite fexp64. cbn [Zdigits2].
  replace (Z.max 0 (Z.max (Zpos (digits2_pos q) + e' - 53) (-1074) - e')) with 0 by lia.
  change (2 ^ 0) with 1. rewrite Z.div_1_r, Z.add_0_r.
  replace (e' <=? emax - prec) with true
    by (symmetry; apply Z.leb_le; unfold emax, prec; lia).
  reflexivity.
Qed.

Lemma canonical_value (z : positive) :
  Zpos z < 2 ^ 53 ->
  exists mz,
    canonical z = S754_finite false mz (Zpos (digits2_pos z) - 53) /\
    Zpos mz = Zpos z * 2 ^ (53 - Zpos (digits2_pos z)) /\
    1 <= Zpos (digits2_pos z) <= 53.
Proof.
  intros Hz.
  assert (Hd : 1 <= Zpos (digits2_pos z) <= 53)
    by (pose proof (digits2_pos_le z 53 ltac:(lia) Hz); lia).
  destruct (shl_align_down z 0 (Zpos (digits2_pos z) - 53) ltac:(lia)) as [_ Hv].
  exists (fst (shl_align z 0 (Zpos (digits2_pos z) - 53))).
  split; [reflexivity |]. split; [| exact Hd].
  rewrite Hv. f_equal. f_equal. lia.
Qed.

Lemma binary_round_exact (m : positive) (e : Z) (z : positive) :
  e <= 0 -> Zpos m = Zpos z * 2 ^ (- e) -> Zpos z < 2 ^ 53 ->
  binary_round prec emax false m e = canonical z.
Proof.
  intros He Hm Hz.
  destruct (canonical_value z Hz) as [mz [-> [Hmz Hd]]].
  set (dz := Zpos (digits2_pos z)) in *.
  pose proof (digits2_pos_shift z (- e) m ltac:(lia) Hm) as Hdm. fold dz in Hdm.
  unfold binary_round. rewrite Hdm, fexp64.
  replace (Z.max (dz + - e + e - 53) (-1074)) with (dz - 53) by lia.
  destruct (Z_le_gt_dec (dz - 53) e) as [Hle | Hgt].
  - (* the mantissa is shifted left to 53 bits *)
    destruct (shl_align_down m e (dz - 53) Hle) as [Heq Hv].
    set (m' := fst (shl_align m e (dz - 53))) in *. rewrite Heq. clear Heq.
    assert (Hm' : Zpos m' = Zpos mz).
    { rewrite Hv, Hmz, Hm, <- Z.mul_assoc, <- pow2_split by lia. f_equal. f_equal. lia. }
    injection Hm' as ->.
    destruct (binary_round_aux_nearest false mz (dz - 53)) as [q' [_ [Hexact ->]]].
    pose proof (digits2_pos_shift z (53 - dz) mz ltac:(lia) Hmz) as Hdmz. fold dz in Hdmz.
    rewrite Hdmz, fexp64 in Hexact |- *.
    replace (Z.max 0 (Z.max (dz + (53 - dz) + (dz - 53) - 53) (-1074) - (dz - 53)))
      with 0 in * by lia.
    change (2 ^ 0) with 1 in Hexact.
    rewrite Z.mod_1_r, Z.div_1_r in Hexact. rewrite (Hexact eq_refl), Z.add_0_r.
    apply renormalised_fits; lia.
  - (* the mantissa is shifted right, dropping zero bits only *)
    rewrite shl_align_up by lia.
    destruct (binary_round_aux_nearest false m e) as [q' [_ [Hexact ->]]].
    rewrite Hdm, fexp64 in Hexact |- *.
    replace (Z.max 0 (Z.max (dz + - e + e - 53) (-1074) - e)) with (dz - 53 - e) in * by lia.
    assert (Hsplit : Zpos m = Zpos mz * 2 ^ (dz - 53 - e)).
    { rewrite Hm, Hmz, <- Z.mul_assoc, <- pow2_split by lia. f_equal. f_equal. lia. }
    assert (0 < 2 ^ (dz - 53 - e)) by (apply pow2_pos; lia).
    rewrite Hsplit, Z.mod_mul, Z.div_mul in Hexact by lia.
    rewrite (Hexact eq_refl). replace (e + (dz - 53 - e)) with (dz - 53) by lia.
    pose proof (digits2_pos_shift z (53 - dz) mz ltac:(lia) Hmz) as Hdmz. fold dz in Hdmz.
    apply renormalised_fits; lia.
Qed.

Lemma of_Z_canonical (z : positive) : Zpos z < 2 ^ 53 -> of_Z (Zpos z) = canonical z.
Proof.
  intros Hz. unfold of_Z. cbn [binary_normalize].
  apply binary_round_exact; [lia | cbn; lia | exact Hz].
Qed.

Lemma to_Z_canonical (z : positive) : Zpos z < 2 ^ 53 -> to_Z (canonical z) = Some (Zpos z).
Proof.
  intros Hz. destruct (canonical_value z Hz) as [mz [-> [Hmz Hd]]].
  set (dz := Zpos (digits2_pos z)) in *. unfold to_Z.
  destruct (Z.leb_spec 0 (dz - 53)) as [H0 | H0].
  - replace (dz - 53) with 0 by lia. replace (53 - dz) with 0 in Hmz by lia.
    f_equal. rewrite Hmz. cbn. lia.
  - assert (0 < 2 ^ (53 - dz)) by (apply pow2_pos; lia).
    replace (- (dz - 53)) with (53 - dz) by lia.
    rewrite Hmz, Z.mod_mul, Z.div_mul by lia. reflexivity.
Qed.

Lemma to_Z_of_Z (z : Z) : 0 <= z < 2 ^ 53 -> to_Z (of_Z z) = Some z.
Proof.
  intros Hz. destruct z as [ | p | p]; [reflexivity | | lia].
  rewrite of_Z_canonical by lia. apply to_Z_canonical. lia.
Qed.

Lemma sub_finite (sx sy : bool) (mx my : positive) (ex ey : Z) :
  sub (S754_finite sx mx ex) (S754_finite sy my ey) =
  binary_normalize prec emax
    (cond_Zopp sx (Zpos (fst (shl_align mx ex (Z.min ex ey)))) -
     cond_Zopp sy (Zpos (fst (shl_align my ey (Z.min ex ey)))))
    (Z.min ex ey) false.
Proof. reflexivity. Qed.

Lemma of_Z_1 : of_Z 1 = S754_finite false 4503599627370496 (-52).
Proof. vm_compute. reflexivity. Qed.

(** Both operands of [n - 1] and [n + 1], aligned at the exponent of [1]. *)
Lemma align_with_one (n : positive) :
  Zpos n < 2 ^ 53 ->
  exists mz ez,
    of_Z (Zpos n) = S754_finite false mz ez /\
    Z.min ez (-52) = -52 /\
    Zpos (fst (shl_align mz ez (-52))) = Zpos n * 4503599627370496 /\
    Zpos (fst (shl_align 4503599627370496 (-52) (-52))) = 4503599627370496.
Proof.
  intros Hn. rewrite of_Z_canonical by exact Hn.
  destruct (canonical_value n Hn) as [mz [-> [Hmz Hd]]].
  set (dn := Zpos (digits2_pos n)) in *.
  exists mz, (dn - 53). split; [reflexivity |]. split; [lia |]. split.
  - destruct (shl_align_down mz (dn - 53) (-52) ltac:(lia)) as [_ ->].
    rewrite Hmz, <- Z.mul_assoc, <- pow2_split by lia.
    replace (53 - dn + (dn - 53 - -52)) with 52 by lia. reflexivity.
  - reflexivity.
Qed.

Lemma sub_1_exact (n : Z) :
  1 <= n < 2 ^ 53 -> sub (of_Z n) (of_Z 1) = of_Z (n - 1).
Proof.
  intros Hn. destruct n as [ | n | n]; try lia.
  destruct (align_with_one n ltac:(lia)) as [mz [ez [-> [Hmin [Ha Hb]]]]].
  rewrite of_Z_1, sub_finite, Hmin. cbn [cond_Zopp]. rewrite Ha, Hb.
  replace (Zpos n * 4503599627370496 - 4503599627370496)
    with ((Zpos n - 1) * 4503599627370496) by lia.
  destruct (Zpos n - 1) as [ | p | p] eqn:Hp; try lia.
  - reflexivity.
  - change (Zpos p * 4503599627370496) with (Zpos (p * 4503599627370496)).
    cbn [binary_normalize]. rewrite of_Z_canonical by lia.
    apply binary_round_exact; [lia | reflexivity | lia].
Qed.

Lemma add_1_exact (n : Z) :
  0 <= n < 2 ^ 53 - 1 -> add (of_Z n) (of_Z 1) = of_Z (n + 1).
Proof.
  intros Hn. destruct n as [ | n | n]; try lia; [reflexivity |].
  destruct (align_with_one n ltac:(lia)) as [mz [ez [-> [Hmin [Ha Hb]]]]].
  rewrite of_Z_1, add_finite, Hmin. cbn [cond_Zopp]. rewrite Ha, Hb.
  replace (Zpos n * 4503599627370496 + 4503599627370496)
    with (Zpos ((n + 1) * 4503599627370496)) by lia.
  cbn [binary_normalize]. replace (Zpos n + 1) with (Zpos (n + 1)) by lia.
  rewrite of_Z_canonical by lia.
  apply binary_round_exact; [lia | reflexivity | lia].
Qed.

Lemma of_Z_positive (n : Z) : 0 < n < 2 ^ 53 -> ltb (of_Z 0) (of_Z n) = true.
Proof.
  intros Hn. destruct n as [ | n | n]; try lia.
  rewrite of_Z_canonical by lia. reflexivity.
Qed.

(** * Further properties of the handlers *)

Lemma loadHistory_trace {host : Host} (history_reply : axios_result) (s : State) :
  requests (trace (loadHistory history_reply s)) = [HttpGet history_url] /\
  alerts (trace (loadHistory history_reply s)) = [].
Proof.
  destruct history_reply as [resp | e];
    [rewrite loadHistory_resolved | rewrite loadHistory_rejected; now split].
  destruct (Get (data resp) "history"); [now split |].
  destruct (truthy (data resp) && truthy v); now split.
Qed.

(** [loadHistory] is self-contained: it always completes, sends the one GET
    and nothing else, shows no alert, and writes no cell but [history]. *)
Theorem loadHistory_contained {host : Host} (history_reply : axios_result) (s : State) :
  let r := loadHistory history_reply s in
  completion r = inr tt /\
  requests (trace r) = [HttpGet history_url] /\
  alerts (trace r) = [] /\
  stressScore (store r) = stressScore s /\
  sensorData (store r) = sensorData s /\
  lastIndex (store r) = lastIndex s.
Proof.
  intros r. split; [apply loadHistory_completes |].
  destruct (loadHistory_trace history_reply s) as [Hr Ha].
  split; [exact Hr |]. split; [exact Ha |].
  apply loadHistory_frame.
Qed.

(** The stored history is never [null], [undefined] or otherwise falsy:
    [loadHistory] only stores a truthy [history] field. *)
Lemma loadHistory_truthy {host : Host} (history_reply : axios_result) (s : State) :
  truthy (history s) = true ->
  truthy (history (store (loadHistory history_reply s))) = true.
Proof.
  intros Ht. destruct history_reply as [resp | e];
    [rewrite loadHistory_resolved | rewrite loadHistory_rejected; exact Ht].
  destruct (Get (data resp) "history") as [e | h]; [exact Ht |].
  destruct (truthy (data resp)); cbn [andb]; [| exact Ht].
  destruct (truthy h) eqn:Hh; [exact Hh | exact Ht].
Qed.

(** What a feedback click does to the store, on every path: the score and
    the sensor snapshot stay, the history is the one before or the one a
    reload leaves, and the index changes only when the render had none. *)
Theorem submitFeedback_store {host : Host} (s : State) (feedback : value)
    (feedback_reply history_reply : axios_result) :
  let r := click_feedback feedback feedback_reply history_reply s in
  stressScore (store r) = stressScore s /\
  sensorData (store r) = sensorData s /\
  (history (store r) = history s \/
   history (store r) = history (store (loadHistory history_reply s))) /\
  (is_null (lastIndex s) = false -> lastIndex (store r) = lastIndex s).
Proof.
  intros r. subst r. destruct (is_null (lastIndex s)) eqn:Hn.
  all: try pose proof (loadHistory_frame history_reply s) as [H1 [H2 H3]].
  - assert (Hl : lastIndex s = VNull) by (destruct (lastIndex s); now try discriminate).
    unfold click_feedback, submitFeedback. rewrite Hl.
    unfold try_catch, bind, await, lift, emit, alert, ret, throw. cbn.
    destruct (Get (history s) "length") as [e | len]; cbn; [frame_cases |].
    destruct (gt len (VNum (of_Z 0))); cbn; [| frame_cases].
    destruct (GetIndex (history s) (sub (ToNumber len) (of_Z 1))) as [e | last]; cbn;
      [frame_cases |].
    destruct (Get last "index") as [e | index]; cbn; frame_cases.
  - destruct feedback_reply as [resp | e].
    + destruct (is_nullish (data resp)) eqn:Hb.
      * rewrite (submitFeedback_no_body s feedback resp history_reply Hn Hb). cbn. frame_cases.
      * destruct (Get_not_nullish (data resp) "index" Hb) as [i Hgi].
        destruct (Get_not_nullish (data resp) "new_score" Hb) as [n Hgn].
        rewrite (submitFeedback_resolved s feedback resp history_reply i n Hn Hgi Hgn).
        cbn [store]. frame_cases.
    + rewrite (submitFeedback_rejected s feedback e history_reply Hn). cbn. frame_cases.
Qed.

Lemma simulatePredict_failed {host : Host} (r1 r2 : number)
    (predict_reply history_reply : axios_result) (s : State) :
  succeeded predict_reply = false ->
  exists text,
    simulatePredict r1 r2 predict_reply history_reply s =
    {| completion := inr tt; store := s;
       trace := [HttpPost predict_url (simulated_data r1 r2); Alert text] |}.
Proof.
  destruct predict_reply as [resp | e]; cbn [succeeded]; intros Hf.
  - apply negb_false_iff in Hf. rewrite (simulatePredict_no_body r1 r2 resp history_reply s Hf).
    eauto.
  - rewrite simulatePredict_rejected. eauto.
Qed.

(** [simulatePredict] reloads the history exactly when the prediction went
    through, and shows an alert exactly when it did not; it always
    completes, and starts with the POST of the sample. *)
Theorem simulatePredict_requests {host : Host} (r1 r2 : number)
    (predict_reply history_reply : axios_result) (s : State) :
  let r := simulatePredict r1 r2 predict_reply history_reply s in
  completion r = inr tt /\
  requests (trace r) =
    HttpPost predict_url (simulated_data r1 r2)
    :: (if succeeded predict_reply then [HttpGet history_url] else []) /\
  List.length (alerts (trace r)) = (if succeeded predict_reply then 0%nat else 1%nat).
Proof.
  intros r. subst r. destruct (succeeded predict_reply) eqn:Hs.
  - destruct predict_reply as [resp | e]; [| discriminate Hs].
    cbn in Hs. apply negb_true_iff in Hs.
    destruct (Get_not_nullish (data resp) "stress_score" Hs) as [score Hsc].
    destruct (Get_not_nullish (data resp) "new_index" Hs) as [index Hi].
    rewrite (simulatePredict_resolved r1 r2 resp history_reply s score index Hsc Hi).
    cbn [completion trace].
    destruct (loadHistory_trace history_reply
                {| stressScore := score; sensorData := simulated_data r1 r2;
                   history := history s; lastIndex := index |})
      as [Hr Ha].
    unfold requests, alerts in *. rewrite !filter_app, Hr, Ha. now repeat split.
  - destruct (simulatePredict_failed r1 r2 predict_reply history_reply s Hs) as [text ->].
    now repeat split.
Qed.

(** What the view shows of the score: no panel for [null], the panel with
    the score and the stored sample for a number, and a throw otherwise. *)
Lemma view_prediction {host : Host} (s : State) (view : View) :
  StressMonitor_view s = inr view ->
  (stressScore s = VNull /\ prediction view = None) \/
  (exists x hrv sp,
     stressScore s = VNum x /\
     Get (sensorData s) "HRV" = inr hrv /\
     Get (sensorData s) "SpO2" = inr (VNum sp) /\
     prediction view =
       Some {| score_shown := x; HRV_shown := hrv; SpO2_shown := sp |}).
Proof.
  unfold StressMonitor_view, and_then.
  destruct (chartData s) as [e | cd]; [discriminate |].
  destruct (stressScore s) as [ | | b | x | str | items | fields] eqn:Hs;
    cbn [is_null toFixed_of]; try discriminate.
  - destruct (history_length_test s) as [e | [ | ]]; [discriminate | |].
    + destruct (Get (history s) "length"); [discriminate |].
      intros H. injection H as <-. left. now split.
    + intros H. injection H as <-. left. now split.
  - destruct (Get (sensorData s) "HRV") as [e | hrv]; [discriminate |].
    destruct (Get (sensorData s) "SpO2") as [e | [ | | b | sp | str | items | fields]];
      cbn [toFixed_of]; try discriminate.
    destruct (history_length_test s) as [e | [ | ]]; [discriminate | |].
    + destruct (Get (history s) "length"); [discriminate |].
      intros H. injection H as <-. right. exists x, hrv, sp. now repeat split.
    + intros H. injection H as <-. right. exists x, hrv, sp. now repeat split.
Qed.

Lemma view_throws_on_score {host : Host} (s : State) :
  is_null (stressScore s) = false ->
  (forall x, stressScore s <> VNum x) ->
  exists e, StressMonitor_view s = inl e.
Proof.
  intros Hn Hx. unfold StressMonitor_view, and_then.
  destruct (chartData s) as [e | cd]; [eauto |].
  rewrite Hn.
  destruct (stressScore s) as [ | | b | x | str | items | fields];
    cbn [toFixed_of]; try discriminate Hn; eauto.
  now contradiction (Hx x).
Qed.

(** A prediction that went through stores the body's [stress_score] and
    [new_index] as they are, [undefined] when the body lacks them, and the
    sample that was posted.  The render that follows throws when the stored
    score is neither [null] nor a number (an absent [stress_score] is such
    a case); when it returns, it shows no panel for a [null] score and
    otherwise the panel with that score and the posted sample. *)
Theorem simulatePredict_success {host : Host} (r1 r2 : number) (response : Response)
    (history_reply : axios_result) (s : State) :
  is_nullish (data response) = false ->
  let r := simulatePredict r1 r2 (Resolved response) history_reply s in
  exists score index,
    Get (data response) "stress_score" = inr score /\
    Get (data response) "new_index" = inr index /\
    stressScore (store r) = score /\
    lastIndex (store r) = index /\
    sensorData (store r) = simulated_data r1 r2 /\
    hd_error (trace r) = Some (HttpPost predict_url (simulated_data r1 r2)) /\
    (is_null score = false -> (forall x, score <> VNum x) ->
     exists e, StressMonitor_view (store r) = inl e) /\
    (forall view, StressMonitor_view (store r) = inr view ->
       (score = VNull /\ prediction view = None) \/
       (exists x, score = VNum x /\
          prediction view =
            Some {| score_shown := x; HRV_shown := VNum (simulated_HRV r1);
                    SpO2_shown := simulated_SpO2 r2 |})).
Proof.
  intros Hb r.
  destruct (Get_not_nullish (data response) "stress_score" Hb) as [score Hsc].
  destruct (Get_not_nullish (data response) "new_index" Hb) as [index Hi].
  exists score, index.
  assert (Hr : r = {| completion := inr tt;
                      store := store (loadHistory history_reply
                                 {| stressScore := score; sensorData := simulated_data r1 r2;
                                    history := history s; lastIndex := index |});
                      trace := [HttpPost predict_url (simulated_data r1 r2);
                                ConsoleLog [VStr "New prediction saved at index:"; index]]
                               ++ trace (loadHistory history_reply
                                    {| stressScore := score;
                                       sensorData := simulated_data r1 r2;
                                       history := history s; lastIndex := index |}) |})
    by (unfold r; apply simulatePredict_resolved; assumption).
  destruct (loadHistory_frame history_reply
              {| stressScore := score; sensorData := simulated_data r1 r2;
                 history := history s; lastIndex := index |}) as [H1 [H2 H3]].
  cbn [stressScore sensorData lastIndex] in H1, H2, H3.
  assert (Hscore : stressScore (store r) = score) by (rewrite Hr; exact H1).
  assert (Hdata : sensorData (store r) = simulated_data r1 r2) by (rewrite Hr; exact H2).
  assert (Hindex : lastIndex (store r) = index) by (rewrite Hr; exact H3).
  split; [exact Hsc |]. split; [exact Hi |]. split; [exact Hscore |].
  split; [exact Hindex |]. split; [exact Hdata |].
  split; [rewrite Hr; reflexivity |]. split.
  - intros Hn Hx. apply view_throws_on_score; rewrite Hscore; assumption.
  - intros view Hv. destruct (view_prediction (store r) view Hv)
      as [[Hnull Hp] | [x [hrv [sp [Hx [Hh [Ho Hp]]]]]]].
    + left. split; [now rewrite <- Hscore | exact Hp].
    + right. exists x. split; [now rewrite <- Hscore |].
      rewrite Hdata in Hh, Ho. unfold simulated_data in Hh, Ho.
      cbn [Get lookup String.eqb Ascii.eqb Bool.eqb] in Hh, Ho.
      injection Hh as <-. injection Ho as <-. exact Hp.
Qed.

Lemma simulatePredict_success_witness :
  is_nullish (data sample_prediction) = false /\
  let r := simulatePredict (host := sample_host) (of_Z 0) below_one
             (Resolved sample_prediction) (Resolved sample_history) initial in
  exists score index,
    Get (host := sample_host) (data sample_prediction) "stress_score" = inr score /\
    Get (host := sample_host) (data sample_prediction) "new_index" = inr index /\
    stressScore (store r) = score /\
    lastIndex (store r) = index /\
    sensorData (store r) = simulated_data (of_Z 0) below_one /\
    hd_error (trace r) = Some (HttpPost predict_url (simulated_data (of_Z 0) below_one)) /\
    (is_null score = false -> (forall x, score <> VNum x) ->
     exists e, StressMonitor_view (host := sample_host) (store r) = inl e) /\
    (forall view, StressMonitor_view (host := sample_host) (store r) = inr view ->
       (score = VNull /\ prediction view = None) \/
       (exists x, score = VNum x /\
          prediction view =
            Some {| score_shown := x; HRV_shown := VNum (simulated_HRV (of_Z 0));
                    SpO2_shown := simulated_SpO2 below_one |})).
Proof.
  split; [reflexivity |].
  apply (simulatePredict_success (host := sample_host)). reflexivity.
Defined.

(** With no index in the render, a feedback click sends no request, whatever
    the history holds. *)
Theorem submitFeedback_unset_sends_nothing {host : Host} (s : State) (feedback : value)
    (feedback_reply history_reply : axios_result) :
  lastIndex s = VNull ->
  requests (trace (click_feedback feedback feedback_reply history_reply s)) = [].
Proof.
  intros Hl.
  destruct (submitFeedback_unset s feedback feedback_reply history_reply Hl)
    as [_ [[-> _] | [-> _]]]; reflexivity.
Qed.

Lemma submitFeedback_unset_sends_nothing_witness :
  lastIndex loaded = VNull /\
  requests (trace (click_feedback (host := sample_host) (VStr "average")
                     (Resolved sample_recorded) (Resolved sample_history) loaded)) = [].
Proof.
  split; [reflexivity |].
  apply (submitFeedback_unset_sends_nothing (host := sample_host)). reflexivity.
Defined.



(** The stored history starts as [[]] and is only ever replaced by a truthy
    value: no handler makes it [null] or [undefined], so the render's test
    [history.length > 0] never throws. *)
Theorem history_stays_readable {host : Host} (s : State) :
  truthy (history s) = true ->
  (exists shown, history_length_test s = inr shown) /\
  (forall history_reply,
     truthy (history (store (loadHistory history_reply s))) = true) /\
  (forall r1 r2 predict_reply history_reply,
     truthy (history (store (simulatePredict r1 r2 predict_reply history_reply s))) = true) /\
  (forall feedback feedback_reply history_reply,
     truthy (history (store (click_feedback feedback feedback_reply history_reply s))) = true).
Proof.
  intros Ht. split; [| split; [| split]].
  - unfold history_length_test. destruct (history s); cbn in *; try discriminate; eauto.
  - intros history_reply. now apply loadHistory_truthy.
  - intros r1 r2 predict_reply history_reply.
    destruct (succeeded predict_reply) eqn:Hs.
    + destruct predict_reply as [resp | e]; [| discriminate Hs].
      cbn in Hs. apply negb_true_iff in Hs.
      destruct (Get_not_nullish (data resp) "stress_score" Hs) as [score Hsc].
      destruct (Get_not_nullish (data resp) "new_index" Hs) as [index Hi].
      rewrite (simulatePredict_resolved r1 r2 resp history_reply s score index Hsc Hi).
      cbn [store]. now apply loadHistory_truthy.
    + destruct (simulatePredict_failed r1 r2 predict_reply history_reply s Hs) as [text ->].
      exact Ht.
  - intros feedback feedback_reply history_reply.
    destruct (is_null (lastIndex s)) eqn:Hn.
    + assert (Hl : lastIndex s = VNull) by (destruct (lastIndex s); now try discriminate).
      destruct (submitFeedback_unset s feedback feedback_reply history_reply Hl) as [-> _].
      exact Ht.
    + destruct feedback_reply as [resp | e].
      * destruct (is_nullish (data resp)) eqn:Hb.
        -- rewrite (submitFeedback_no_body s feedback resp history_reply Hn Hb). exact Ht.
        -- destruct (Get_not_nullish (data resp) "index" Hb) as [i Hgi].
           destruct (Get_not_nullish (data resp) "new_score" Hb) as [n Hgn].
           rewrite (submitFeedback_resolved s feedback resp history_reply i n Hn Hgi Hgn).
           cbn [store]. now apply loadHistory_truthy.
      * rewrite (submitFeedback_rejected s feedback e history_reply Hn). exact Ht.
Qed.

Lemma history_stays_readable_witness :
  truthy (history initial) = true /\
  (exists shown, history_length_test (host := sample_host) initial = inr shown) /\
  truthy (history (store (loadHistory (host := sample_host)
                            (Resolved {| data := VObj [("history", VNull)] |}) initial)))
  = true.
Proof.
  split; [reflexivity |].
  destruct (history_stays_readable (host := sample_host) initial eq_refl) as [H1 [H2 _]].
  split; [exact H1 | apply H2].
Defined.

(** * The last row of the history *)

Lemma nth_last (A : Type) (l : list A) (d : A) :
  nth (List.length l - 1) l d = last l d.
Proof.
  induction l as [ | a [ | b l] IH]; try reflexivity.
  cbn [List.length last] in *. rewrite <- IH.
  replace (S (S (List.length l)) - 1)%nat with (S (S (List.length l) - 1)) by lia.
  reflexivity.
Qed.

(** [history.length > 0] and [history[history.length - 1]] on an array: the
    test holds for a non-empty array and the read gives its last element. *)
Lemma last_row_read {host : Host} (items : list value) :
  Z.of_nat (List.length items) < 2 ^ 53 ->
  let len := VNum (of_Z (Z.of_nat (List.length items))) in
  Get (VArr items) "length" = inr len /\
  gt len (VNum (of_Z 0)) = negb (Nat.eqb (List.length items) 0) /\
  (items <> [] ->
   GetIndex (VArr items) (sub (ToNumber len) (of_Z 1)) = inr (last items VUndefined)).
Proof.
  intros Hlen len. split; [reflexivity |]. split.
  - unfold gt, len. cbn [ToNumber].
    destruct items as [ | a l]; [reflexivity |].
    cbn [List.length Nat.eqb negb] in *. apply of_Z_positive. lia.
  - intros Hne. unfold len. cbn [ToNumber GetIndex].
    assert (Hpos : (0 < List.length items)%nat) by (destruct items; [congruence | cbn; lia]).
    rewrite sub_1_exact by lia. rewrite to_Z_of_Z by lia.
    replace (0 <=? Z.of_nat (List.length items) - 1) with true
      by (symmetry; apply Z.leb_le; lia).
    replace (Z.to_nat (Z.of_nat (List.length items) - 1)) with (List.length items - 1)%nat
      by lia.
    rewrite nth_last. reflexivity.
Qed.

(** The fallback to the last history row works one click late: the first
    click without a remembered index stores the row's index and shows
    "Please simulate a reading first"; the next click posts that index. *)
Theorem submitFeedback_fallback_next_click {host : Host} (s : State)
    (items : list value) (index : value) (feedback : value)
    (feedback_reply history_reply : axios_result) :
  lastIndex s = VNull ->
  history s = VArr items ->
  Z.of_nat (List.length items) < 2 ^ 53 ->
  Get (last items VUndefined) "index" = inr index ->
  is_null index = false ->
  let first := click_feedback feedback feedback_reply history_reply s in
  trace first = [Alert "Please simulate a reading first"] /\
  store first = {| stressScore := stressScore s; sensorData := sensorData s;
                   history := history s; lastIndex := index |} /\
  forall feedback' feedback_reply' history_reply',
    exists rest,
      trace (click_feedback feedback' feedback_reply' history_reply' (store first)) =
      HttpPost feedback_url (VObj [("index", index); ("feedback", feedback')]) :: rest.
Proof.
  intros Hl Hh Hlen Hrow Hidx first.
  assert (Hne : items <> []).
  { intros ->. cbn in Hrow. discriminate Hrow. }
  destruct (last_row_read items Hlen) as [Hg [Hgt Hlast]]. specialize (Hlast Hne).
  assert (Hfirst : first =
            {| completion := inr tt;
               store := {| stressScore := stressScore s; sensorData := sensorData s;
                           history := history s; lastIndex := index |};
               trace := [Alert "Please simulate a reading first"] |}).
  { unfold first, click_feedback, submitFeedback. rewrite Hl, Hh.
    unfold try_catch, bind, await, lift, emit, alert, ret, throw, setLastIndex.
    cbn [is_null]. rewrite Hg, Hgt.
    replace (negb (Nat.eqb (List.length items) 0)) with true
      by (destruct items; [congruence | reflexivity]).
    rewrite Hlast, Hrow. cbn. rewrite Hh. reflexivity. }
  rewrite Hfirst. cbn [trace store]. split; [reflexivity |]. split; [reflexivity |].
  intros feedback' feedback_reply' history_reply'.
  set (s' := {| stressScore := stressScore s; sensorData := sensorData s;
                history := history s; lastIndex := index |}).
  assert (Hn : is_null (lastIndex s') = false) by exact Hidx.
  destruct feedback_reply' as [resp | e].
  - destruct (is_nullish (data resp)) eqn:Hb.
    + rewrite (submitFeedback_no_body s' feedback' resp history_reply' Hn Hb). cbn. eauto.
    + destruct (Get_not_nullish (data resp) "index" Hb) as [i Hgi].
      destruct (Get_not_nullish (data resp) "new_score" Hb) as [n Hgn].
      rewrite (submitFeedback_resolved s' feedback' resp history_reply' i n Hn Hgi Hgn).
      cbn. eauto.
  - rewrite (submitFeedback_rejected s' feedback' e history_reply' Hn). cbn. eauto.
Qed.

Lemma submitFeedback_fallback_next_click_witness :
  lastIndex loaded = VNull /\
  history loaded = VArr [sample_row] /\
  Z.of_nat (List.length [sample_row]) < 2 ^ 53 /\
  Get (host := sample_host) (last [sample_row] VUndefined) "index" = inr (VNum (of_Z 7)) /\
  is_null (VNum (of_Z 7)) = false /\
  let first := click_feedback (host := sample_host) (VStr "good")
                 (Resolved sample_recorded) (Resolved sample_history) loaded in
  trace first = [Alert "Please simulate a reading first"] /\
  store first = {| stressScore := stressScore loaded; sensorData := sensorData loaded;
                   history := history loaded; lastIndex := VNum (of_Z 7) |} /\
  forall feedback' feedback_reply' history_reply',
    exists rest,
      trace (click_feedback (host := sample_host) feedback' feedback_reply'
               history_reply' (store first)) =
      HttpPost feedback_url (VObj [("index", VNum (of_Z 7)); ("feedback", feedback')])
      :: rest.
Proof.
  split; [reflexivity |]. split; [reflexivity |]. split; [reflexivity |].
  split; [reflexivity |]. split; [reflexivity |].
  apply (submitFeedback_fallback_next_click (host := sample_host) loaded [sample_row]);
    reflexivity.
Defined.

(** * The chart data *)

Lemma map_entries_nth (f : value -> nat -> exn + value) (items : list value) :
  forall (k : nat) (vs : list value),
    map_entries f items k = inr vs ->
    List.length vs = List.length items /\
    forall (i : nat) (row : value),
      nth_error items i = Some row ->
      exists v, f row (k + i)%nat = inr v /\ nth_error vs i = Some v.
Proof.
  induction items as [ | entry rest IH]; intros k vs Hm; cbn [map_entries] in Hm.
  - injection Hm as <-. split; [reflexivity |]. intros [ | i] row H; discriminate H.
  - destruct (f entry k) as [e | v] eqn:Hf; [discriminate Hm |].
    destruct (map_entries f rest (S k)) as [e | vs'] eqn:Hr; [discriminate Hm |].
    injection Hm as <-. destruct (IH (S k) vs' Hr) as [Hlen Hnth].
    split; [cbn; now rewrite Hlen |].
    intros [ | i] row H; cbn [nth_error] in *.
    + injection H as <-. exists v. rewrite Nat.add_0_r. now split.
    + destruct (Hnth i row H) as [v' [Hv' Hn']]. exists v'.
      replace (k + S i)%nat with (S k + i)%nat by lia. now split.
Qed.

Lemma map_entries_throws {host : Host} (key : string) (fallback : nat -> value)
    (items : list value) :
  forall k,
    (exists e, map_entries (fun entry idx => field_or key (fallback idx) entry) items k
               = inl e) <->
    (exists entry, In entry items /\ is_nullish entry = true).
Proof.
  induction items as [ | entry rest IH]; intros k; cbn [map_entries].
  - split; [intros [e H]; discriminate H | intros [entry [[] _]]].
  - unfold field_or at 1. destruct (is_nullish entry) eqn:Hn.
    + rewrite (Get_nullish entry key Hn). split; [| eauto].
      intros _. exists entry. split; [now left | exact Hn].
    + destruct (Get_not_nullish entry key Hn) as [v ->].
      specialize (IH (S k)).
      destruct (map_entries _ rest (S k)) as [e | vs].
      * split; [| eauto]. intros _.
        destruct (proj1 IH (ex_intro _ e eq_refl)) as [entry' [Hin Hn']].
        exists entry'. split; [now right | exact Hn'].
      * split; [intros [e H]; discriminate H |].
        intros [entry' [[<- | Hin] Hn']]; [congruence |].
        destruct (proj2 IH (ex_intro _ entry' (conj Hin Hn'))) as [e H]. discriminate H.
Qed.

(** The chart data is built on every render.  For an array of rows it
    throws exactly when some row is [null] or [undefined]; otherwise it has
    one label, one HRV point and one SpO2 point per row. *)
Theorem chartData_per_row {host : Host} (s : State) (items : list value) :
  history s = VArr items ->
  ((exists e, chartData s = inl e) <->
   (exists entry, In entry items /\ is_nullish entry = true)) /\
  (forall cd, chartData s = inr cd ->
     List.length (labels cd) = List.length items /\
     List.length (HRV_points cd) = List.length items /\
     List.length (SpO2_points cd) = List.length items).
Proof.
  intros Hh. unfold chartData. rewrite Hh. cbn [history_map].
  pose proof (map_entries_throws "Timestamp" position_label items 0) as HL.
  pose proof (map_entries_throws "HRV_Denormalized" (fun _ => VNum (of_Z 0)) items 0) as HH.
  pose proof (map_entries_throws "Oxygen_Saturation" (fun _ => VNum (of_Z 0)) items 0) as HO.
  destruct (map_entries (fun entry idx => field_or "Timestamp" (position_label idx) entry)
              items 0) as [e | ls] eqn:El.
  { split; [| intros cd H; discriminate H].
    split; [intros _; apply HL; eauto | eauto]. }
  destruct (map_entries (fun entry _ => field_or "HRV_Denormalized" (VNum (of_Z 0)) entry)
              items 0) as [e | hs] eqn:Eh.
  { split; [| intros cd H; discriminate H].
    split; [intros _; apply HH; eauto | eauto]. }
  destruct (map_entries (fun entry _ => field_or "Oxygen_Saturation" (VNum (of_Z 0)) entry)
              items 0) as [e | os] eqn:Eo.
  { split; [| intros cd H; discriminate H].
    split; [intros _; apply HO; eauto | eauto]. }
  split.
  - split; [intros [e H]; discriminate H |].
    intros Hex. apply HL in Hex. destruct Hex as [e H]. discriminate H.
  - intros cd H. injection H as <-. cbn [labels HRV_points SpO2_points].
    destruct (map_entries_nth _ _ _ _ El) as [H1 _].
    destruct (map_entries_nth _ _ _ _ Eh) as [H2 _].
    destruct (map_entries_nth _ _ _ _ Eo) as [H3 _].
    now repeat split.
Qed.

Lemma chartData_per_row_witness :
  history loaded = VArr [sample_row] /\
  (forall cd, chartData (host := sample_host) loaded = inr cd ->
     List.length (labels cd) = 1%nat /\
     List.length (HRV_points cd) = 1%nat /\
     List.length (SpO2_points cd) = 1%nat).
Proof.
  split; [reflexivity |].
  destruct (chartData_per_row (host := sample_host) loaded [sample_row] eq_refl) as [_ H].
  exact H.
Defined.

(** Row [i] of the history is labelled with its [Timestamp], or with [#]
    and its position counted from 1 when it has none, and is plotted at its
    [HRV_Denormalized] and [Oxygen_Saturation], or at 0 for a missing or
    falsy one. *)
Theorem chartData_row {host : Host} (s : State) (items : list value) (cd : ChartData)
    (i : nat) (row : value) :
  history s = VArr items ->
  Z.of_nat (List.length items) < 2 ^ 53 ->
  chartData s = inr cd ->
  nth_error items i = Some row ->
  exists t h o,
    Get row "Timestamp" = inr t /\
    Get row "HRV_Denormalized" = inr h /\
    Get row "Oxygen_Saturation" = inr o /\
    nth_error (labels cd) i =
      Some (if truthy t then t
            else VStr ("#" ++ NumberToString (of_Z (Z.of_nat i + 1)))) /\
    nth_error (HRV_points cd) i = Some (if truthy h then h else VNum (of_Z 0)) /\
    nth_error (SpO2_points cd) i = Some (if truthy o then o else VNum (of_Z 0)).
Proof.
  intros Hh Hlen Hcd Hrow. unfold chartData in Hcd. rewrite Hh in Hcd.
  cbn [history_map] in Hcd.
  destruct (map_entries (fun entry idx => field_or "Timestamp" (position_label idx) entry)
              items 0) as [e | ls] eqn:El; [discriminate Hcd |].
  destruct (map_entries (fun entry _ => field_or "HRV_Denormalized" (VNum (of_Z 0)) entry)
              items 0) as [e | hs] eqn:Eh; [discriminate Hcd |].
  destruct (map_entries (fun entry _ => field_or "Oxygen_Saturation" (VNum (of_Z 0)) entry)
              items 0) as [e | os] eqn:Eo; [discriminate Hcd |].
  injection Hcd as <-. cbn [labels HRV_points SpO2_points].
  destruct (map_entries_nth _ _ _ _ El) as [_ H1]. destruct (H1 i row Hrow) as [l [Hl Hln]].
  destruct (map_entries_nth _ _ _ _ Eh) as [_ H2]. destruct (H2 i row Hrow) as [p [Hp Hpn]].
  destruct (map_entries_nth _ _ _ _ Eo) as [_ H3]. destruct (H3 i row Hrow) as [q [Hq Hqn]].
  cbn [Nat.add] in Hl, Hp, Hq. unfold field_or in Hl, Hp, Hq.
  destruct (Get row "Timestamp") as [e | t]; [discriminate Hl |].
  destruct (Get row "HRV_Denormalized") as [e | h]; [discriminate Hp |].
  destruct (Get row "Oxygen_Saturation") as [e | o]; [discriminate Hq |].
  injection Hl as <-. injection Hp as <-. injection Hq as <-.
  exists t, h, o. repeat split; try assumption.
  rewrite Hln. unfold or_else, position_label. cbn [ToString].
  assert (Hi : (i < List.length items)%nat) by (apply nth_error_Some; congruence).
  rewrite add_1_exact by lia. reflexivity.
Qed.

Lemma chartData_row_witness :
  history loaded = VArr [sample_row] /\
  Z.of_nat (List.length [sample_row]) < 2 ^ 53 /\
  nth_error [sample_row] 0 = Some sample_row /\
  chartData (host := sample_host) loaded =
    inr {| labels := [VStr "2025-01-01 10:00:00"];
           HRV_points := [VNum (of_Z 62)];
           SpO2_points := [VNum (of_Z 97)] |} /\
  exists t h o,
    Get (host := sample_host) sample_row "Timestamp" = inr t /\
    Get (host := sample_host) sample_row "HRV_Denormalized" = inr h /\
    Get (host := sample_host) sample_row "Oxygen_Saturation" = inr o /\
    nth_error [VStr "2025-01-01 10:00:00"] 0 =
      Some (if truthy t then t
            else VStr ("#" ++ NumberToString (Host := sample_host) (of_Z (Z.of_nat 0 + 1)))) /\
    nth_error [VNum (of_Z 62)] 0 = Some (if truthy h then h else VNum (of_Z 0)) /\
    nth_error [VNum (of_Z 97)] 0 = Some (if truthy o then o else VNum (of_Z 0)).
Proof.
  split; [reflexivity |]. split; [reflexivity |]. split; [reflexivity |].
  split; [vm_compute; reflexivity |].
  apply (chartData_row (host := sample_host) loaded [sample_row]
           {| labels := [VStr "2025-01-01 10:00:00"];
              HRV_points := [VNum (of_Z 62)];
              SpO2_points := [VNum (of_Z 97)] |} 0%nat sample_row);
    reflexivity.
Defined.

(** * When the SpO2 reaches 100 *)

Lemma ltb_same_exponent (a b : positive) (e : Z) :
  Zpos a < Zpos b -> ltb (S754_finite false a e) (S754_finite false b e) = true.
Proof.
  intros H. unfold ltb, SFltb, SFcompare. rewrite Z.compare_refl.
  change (Pos.compare_cont Eq a b) with (Pos.compare a b).
  destruct (Pos.compare_spec a b); try reflexivity; lia.
Qed.

Lemma compare_cont_Eq_spec (p q : positive) :
  match Pos.compare_cont Eq p q with
  | Lt => Zpos p < Zpos q
  | Eq => Zpos p = Zpos q
  | Gt => Zpos q < Zpos p
  end.
Proof.
  change (Pos.compare_cont Eq p q) with (Pos.compare p q).
  destruct (Pos.compare_spec p q); lia.
Qed.

Lemma threshold_compare (m : positive) (e : Z) :
  Math_random_range (S754_finite false m e) = true ->
  (ltb (S754_finite false m e) SpO2_threshold = true ->
   e < -53 \/ (e = -53 /\ Zpos m < 9007199254740984)) /\
  (ltb (S754_finite false m e) SpO2_threshold = false ->
   e = -53 /\ 9007199254740984 <= Zpos m < 9007199254740992).
Proof.
  intros Hr. destruct (random_finite_inv m e Hr) as [He [Hm _]].
  change (2 ^ 53) with 9007199254740992 in Hm.
  unfold ltb, SFltb, SFcompare, SpO2_threshold.
  destruct (Z.compare_spec e (-53)) as [He' | He' | He'].
  - pose proof (compare_cont_Eq_spec m 9007199254740984) as Hc.
    destruct (Pos.compare_cont Eq m 9007199254740984); split; intros H;
      try discriminate H; lia.
  - split; intros H; [lia | discriminate H].
  - lia.
Qed.

Lemma SpO2_at_the_top (m : positive) :
  9007199254740984 <= Zpos m < 9007199254740992 ->
  simulated_SpO2 (S754_finite false m (-53)) = of_Z 100.
Proof.
  intros H.
  assert (Hm : Zpos m = 9007199254740984 \/ Zpos m = 9007199254740985 \/
               Zpos m = 9007199254740986 \/ Zpos m = 9007199254740987 \/
               Zpos m = 9007199254740988 \/ Zpos m = 9007199254740989 \/
               Zpos m = 9007199254740990 \/ Zpos m = 9007199254740991) by lia.
  repeat destruct Hm as [Hm | Hm]; injection Hm as ->; vm_compute; reflexivity.
Qed.

Lemma SpO2_below_the_top (m : positive) (e : Z) :
  Math_random_range (S754_finite false m e) = true ->
  e < -53 \/ (e = -53 /\ Zpos m < 9007199254740984) ->
  ltb (simulated_SpO2 (S754_finite false m e)) (of_Z 100) = true.
Proof.
  intros Hr Hbelow. destruct (random_finite_inv m e Hr) as [He [Hm _]].
  change (2 ^ 53) with 9007199254740992 in Hm.
  destruct (mul_8_exact m e Hr) as [m8 [e8 [Hmul [He8 [Hm8 [Hk Hscale]]]]]].
  unfold simulated_SpO2. rewrite Hmul.
  destruct (add_92_range m8 e8 He8 Hm8) as [p [-> [Hp Hnear]]].
  rewrite of_Z_100. apply ltb_same_exponent.
  unfold nearest in Hnear.
  set (n := -46 - e8) in *. set (k := e + 3 - e8) in *.
  assert (Hn : 0 <= n) by (unfold n; lia).
  assert (HP : 0 < 2 ^ n) by (apply pow2_pos; lia).
  assert (HK : 0 < 2 ^ k) by (apply pow2_pos; lia).
  assert (Hnk : 2 ^ n = 2 ^ k * 2 ^ (-49 - e)).
  { rewrite <- pow2_split by lia. f_equal. unfold n, k. lia. }
  assert (HT : 16 <= 2 ^ (-49 - e)).
  { change 16 with (2 ^ 4). apply Z.pow_le_mono_r; lia. }
  (* 16 * m8 + 9 * P <= 128 * 2^46 * P, the sample being below the threshold *)
  assert (Hbound : 16 * Zpos m8 + 9 * 2 ^ n <= 9007199254740992 * 2 ^ n).
  { rewrite Hscale, Hnk. destruct Hbelow as [Hlt | [-> Hlt]].
    - assert (32 <= 2 ^ (-49 - e))
        by (change 32 with (2 ^ 5); apply Z.pow_le_mono_r; lia).
      set (T := 2 ^ (-49 - e)) in *. set (K := 2 ^ k) in *. nia.
    - change (2 ^ (-49 - -53)) with 16. set (K := 2 ^ k) in *. nia. }
  set (P := 2 ^ n) in *.
  set (M2 := Zpos m8 + 6473924464345088 * P) in *.
  pose proof (Z.div_mod M2 P ltac:(lia)) as Hdm.
  pose proof (Z.mod_pos_bound M2 P ltac:(lia)) as Hmb.
  assert (Htop : 16 * M2 + 9 * P <= 16 * 7036874417766400 * P) by (unfold M2; lia).
  destruct Hnear as [[Hq _] | [Hq Hup]]; rewrite Hq.
  - apply (Z.mul_lt_mono_pos_l P); lia.
  - assert (M2 / P < 7036874417766400 - 1); [| lia].
    apply (Z.mul_lt_mono_pos_l (16 * P)); lia.
Qed.

(** The generated SpO2 is below 100 for every random number below
    [1 - 2^-50], and exactly 100 for the eight numbers from there up to 1. *)
Theorem simulated_SpO2_top (random : number) :
  Math_random_range random = true ->
  (ltb random SpO2_threshold = true ->
   ltb (simulated_SpO2 random) (of_Z 100) = true) /\
  (ltb random SpO2_threshold = false -> simulated_SpO2 random = of_Z 100).
Proof.
  intros Hr. destruct (Math_random_range_inv random Hr) as [-> | [m [e ->]]].
  - split; [intros _; vm_compute; reflexivity | intros H; discriminate H].
  - destruct (threshold_compare m e Hr) as [Hlt Hge]. split.
    + intros H. apply SpO2_below_the_top; [exact Hr | now apply Hlt].
    + intros H. destruct (Hge H) as [-> Hm]. now apply SpO2_at_the_top.
Qed.

Lemma simulated_SpO2_top_witness :
  Math_random_range below_one = true /\
  Math_random_range (HRV_preimage 57) = true /\
  ltb (HRV_preimage 57) SpO2_threshold = true /\
  ltb below_one SpO2_threshold = false /\
  ltb (simulated_SpO2 (HRV_preimage 57)) (of_Z 100) = true /\
  simulated_SpO2 below_one = of_Z 100.
Proof.
  split; [reflexivity |]. split; [reflexivity |].
  split; [reflexivity |]. split; [reflexivity |].
  split.
  - apply (simulated_SpO2_top (HRV_preimage 57)); reflexivity.
  - apply (simulated_SpO2_top below_one); reflexivity.
Defined.

(** * The first render *)

Lemma chartData_throws_iff {host : Host} (s : State) (items : list value) :
  history s = VArr items ->
  ((exists e, chartData s = inl e) <->
   (exists row, In row items /\ is_nullish row = true)).
Proof.
  intros Hh. unfold chartData. rewrite Hh. cbn [history_map].
  pose proof (map_entries_throws "Timestamp" position_label items 0) as HL.
  pose proof (map_entries_throws "HRV_Denormalized" (fun _ => VNum (of_Z 0)) items 0) as HH.
  pose proof (map_entries_throws "Oxygen_Saturation" (fun _ => VNum (of_Z 0)) items 0) as HO.
  destruct (map_entries (fun entry idx => field_or "Timestamp" (position_label idx) entry)
              items 0) as [e | ls].
  { split; [intros _; apply HL; eauto | eauto]. }
  destruct (map_entries (fun entry _ => field_or "HRV_Denormalized" (VNum (of_Z 0)) entry)
              items 0) as [e | hs].
  { split; [intros _; apply HH; eauto | eauto]. }
  destruct (map_entries (fun entry _ => field_or "Oxygen_Saturation" (VNum (of_Z 0)) entry)
              items 0) as [e | os].
  { split; [intros _; apply HO; eauto | eauto]. }
  split; [intros [e H]; discriminate H |].
  intros Hex. apply HL in Hex. destruct Hex as [e H]. discriminate H.
Qed.

(** The view of a state without a score whose history is an array: the
    chart data decides whether it throws, the length whether the chart or
    the retry panel comes. *)
Lemma view_without_score {host : Host} (s : State) (items : list value) :
  stressScore s = VNull ->
  history s = VArr items ->
  Z.of_nat (List.length items) < 2 ^ 53 ->
  StressMonitor_view s =
  match chartData s with
  | inl e => inl e
  | inr cd =>
      inr {| prediction := None;
             chart := match items with
                      | [] => None
                      | _ :: _ =>
                          Some {| readings := VNum (of_Z (Z.of_nat (List.length items)));
                                  series := cd |}
                      end |}
  end.
Proof.
  intros Hs Hh Hlen. unfold StressMonitor_view, and_then, history_length_test.
  destruct (chartData s) as [e | cd]; [reflexivity |].
  rewrite Hs, Hh. cbn [is_null].
  destruct (last_row_read items Hlen) as [-> [-> _]].
  destruct items; reflexivity.
Qed.

(** After the load on mount there is no score and no remembered index,
    whatever the backend replied, so a render that returns has no prediction
    panel and none of the feedback buttons.  When the loaded history is a
    sequence, the render throws exactly when one of its rows is [null] or
    [undefined], and otherwise shows the chart exactly when the sequence is
    not empty; when the request was rejected it shows the retry panel. *)
Theorem mount_view {host : Host} (history_reply : axios_result) :
  let s := store (mount history_reply) in
  stressScore s = VNull /\
  lastIndex s = VNull /\
  (forall view, StressMonitor_view s = inr view -> prediction view = None) /\
  (forall response items,
     history_reply = Resolved response ->
     Get (data response) "history" = inr (VArr items) ->
     Z.of_nat (List.length items) < 2 ^ 53 ->
     ((exists e, StressMonitor_view s = inl e) <->
      (exists row, In row items /\ is_nullish row = true)) /\
     (forall view, StressMonitor_view s = inr view ->
        (chart view = None <-> items = []))) /\
  (forall error,
     history_reply = Rejected error ->
     StressMonitor_view s = inr {| prediction := None; chart := None |}).
Proof.
  intros s. subst s. unfold mount.
  destruct (loadHistory_frame history_reply initial) as [Hs [_ Hl]].
  cbn [stressScore lastIndex initial] in Hs, Hl.
  split; [exact Hs |]. split; [exact Hl |]. split; [| split].
  - intros view Hv.
    destruct (view_prediction _ view Hv) as [[_ Hp] | [x [_ [_ [Hx _]]]]];
      [exact Hp | congruence].
  - intros response items -> Hg Hlen.
    assert (Hst : store (loadHistory (Resolved response) initial) =
                  {| stressScore := VNull;
                     sensorData := VObj [("HRV", VNull); ("SpO2", VNull)];
                     history := VArr items; lastIndex := VNull |}).
    { rewrite loadHistory_resolved, Hg, (Get_history_object _ _ Hg eq_refl). reflexivity. }
    rewrite Hst.
    set (s := {| stressScore := VNull;
                 sensorData := VObj [("HRV", VNull); ("SpO2", VNull)];
                 history := VArr items; lastIndex := VNull |}).
    rewrite (view_without_score s items eq_refl eq_refl Hlen).
    pose proof (chartData_throws_iff s items eq_refl) as Hthrow.
    destruct (chartData s) as [e | cd]; split.
    + split; [intros _; apply Hthrow; eauto | eauto].
    + intros view H. discriminate H.
    + split; [intros [e H]; discriminate H |].
      intros H. apply Hthrow in H. destruct H as [e H]. discriminate H.
    + intros view H. injection H as <-. cbn [chart].
      destruct items; split; intros H; try reflexivity; discriminate H.
  - intros error ->. rewrite loadHistory_rejected. reflexivity.
Qed.

Lemma mount_view_witness :
  Get (host := sample_host) (data sample_history) "history" = inr (VArr [sample_row]) /\
  Z.of_nat (List.length [sample_row]) < 2 ^ 53 /\
  (forall view,
     StressMonitor_view (host := sample_host)
       (store (mount (host := sample_host) (Resolved sample_history))) = inr view ->
     (chart view = None <-> [sample_row] = [])) /\
  StressMonitor_view (host := sample_host)
    (store (mount (host := sample_host) (Rejected network_error))) =
  inr {| prediction := None; chart := None |}.
Proof.
  split; [reflexivity |]. split; [reflexivity |]. split.
  - destruct (mount_view (host := sample_host) (Resolved sample_history))
      as [_ [_ [_ [H _]]]].
    destruct (H sample_history [sample_row] eq_refl eq_refl eq_refl) as [_ Hc].
    exact Hc.
  - destruct (mount_view (host := sample_host) (Rejected network_error))
      as [_ [_ [_ [_ H]]]].
    apply (H network_error). reflexivity.
Defined.
